(** * homes-scraper: a shallow embedding of [script.py]

  The development follows the source file top to bottom:

  - [PyStr]      the [str] methods the script calls ([strip], [split],
                 [replace], [lower], [in], [join]), on byte strings;
  - [PyNum]      Python numbers: [int] as [Z], [float] as IEEE-754 binary64
                 ([spec_float] at precision 53), with [int()] and [float()];
  - [Price]      [convert_price_to_number] and its two regular expressions;
  - [Soup]       the part of BeautifulSoup the script uses ([find],
                 [find_all], [get_text]) on a tree of tags and strings;
  - [Listing]    [process_listing];
  - [World]      the network, the disk and the clock as oracles, with a state
                 monad recording the requests, sleeps and writes;
  - [Scraper]    [scrape_page] and [scrape_real_estate_listings].

  Strings are sequences of bytes holding UTF-8 text.  The character classes
  [\d] and [\s] and the methods [strip], [split] and [lower] are those of
  Python on the ASCII range, where a byte is a character.  Outside that
  range Python also knows white space (U+00A0), decimal digits (U+0661) and
  letters with a lower case that the model does not: a byte above 127 is
  here neither a digit nor white space and is its own lower case.  The
  statements that depend on the class of a character are therefore made for
  texts that satisfy [PyStr.ascii_only]. *)

From Stdlib Require Import ZArith Bool List String Ascii Lia QArith.
From Stdlib Require Import Floats.SpecFloat.
From stdpp Require Import base option strings gmap.

Set Warnings "-register-all".

Local Open Scope string_scope.
Local Open Scope Z_scope.

(* Let [simpl] compute the concatenation of strings, as it does for lists. *)
Global Arguments String.append !s1 s2 / : simpl nomatch.

(** ** The [str] methods used by the script *)

Module PyStr.

Definition code (c : ascii) : Z := Z.of_N (N_of_ascii c).

(** [c.isdigit()], also the class [\d], on ASCII. *)
Definition is_digit (c : ascii) : bool :=
  (48 <=? code c) && (code c <=? 57).

(** [c.isspace()], also the class [\s], on ASCII: TAB, LF, VT, FF, CR, the
    four separators FS, GS, RS, US, and the space. *)
Definition is_space (c : ascii) : bool :=
  ((9 <=? code c) && (code c <=? 13))
  || ((28 <=? code c) && (code c <=? 32)).

(** The characters of the ASCII range, and the texts made of them. *)
Definition is_ascii (c : ascii) : bool := code c <? 128.

Definition is_upper (c : ascii) : bool :=
  (65 <=? code c) && (code c <=? 90).

Definition lower_char (c : ascii) : ascii :=
  if is_upper c then ascii_of_N (Z.to_N (code c + 32)) else c.

(** [s.lower()] *)
Fixpoint lower (s : string) : string :=
  match s with
  | EmptyString => EmptyString
  | String c r => String (lower_char c) (lower r)
  end.

Definition is_empty (s : string) : bool :=
  match s with EmptyString => true | _ => false end.

(** [s.lstrip()], [s.rstrip()], [s.strip()] *)
Fixpoint lstrip (s : string) : string :=
  match s with
  | EmptyString => EmptyString
  | String c r => if is_space c then lstrip r else s
  end.

Fixpoint rstrip (s : string) : string :=
  match s with
  | EmptyString => EmptyString
  | String c r =>
      let r' := rstrip r in
      if is_space c && is_empty r' then EmptyString else String c r'
  end.

Definition strip (s : string) : string := rstrip (lstrip s).

(** [s.rstrip(c)] for a single character [c] *)
Fixpoint rstrip_char (x : ascii) (s : string) : string :=
  match s with
  | EmptyString => EmptyString
  | String c r =>
      let r' := rstrip_char x r in
      if Ascii.eqb c x && is_empty r' then EmptyString else String c r'
  end.

(** [s.replace(x, new)] for a single character [x] *)
Fixpoint replace_char (x : ascii) (new : string) (s : string) : string :=
  match s with
  | EmptyString => EmptyString
  | String c r =>
      if Ascii.eqb c x then new ++ replace_char x new r
      else String c (replace_char x new r)
  end.

(** [sub in s] *)
Fixpoint contains (sub s : string) : bool :=
  String.prefix sub s
  || match s with
     | EmptyString => false
     | String _ r => contains sub r
     end.

Definition cons_run (w : string) (ws : list string) : list string :=
if is_empty w then ws else w :: ws.

(** [runs_from p s] is the run of characters satisfying [p] that starts at
the head of [s] (empty when the head does not satisfy [p]) and the runs
after it. *)
Fixpoint runs_from (p : ascii -> bool) (s : string) : string * list string :=
match s with
| EmptyString => (EmptyString, [])
| String c r =>
    let '(w, ws) := runs_from p r in
    if p c then (String c w, ws)
    else (EmptyString, cons_run w ws)
end.

(** The maximal runs of characters satisfying [p], from left to right. *)
Definition runs (p : ascii -> bool) (s : string) : list string :=
let '(w, ws) := runs_from p s in cons_run w ws.

(** [s.split()]: the maximal runs of characters that are not white space. *)
Definition split_ws (s : string) : list string :=
runs (fun c => negb (is_space c)) s.

(** [pieces sep skip s]: [skip] characters of a separator that has just been
    recognised are still to be passed over. *)
Fixpoint pieces (sep : string) (skip : nat) (s : string) {struct s}
  : string * list string :=
  match s with
  | EmptyString => (EmptyString, [])
  | String c r =>
      match skip with
      | S k => pieces sep k r
      | O =>
          if String.prefix sep s then
            let '(w, ws) := pieces sep (Nat.pred (String.length sep)) r in
            (EmptyString, w :: ws)
          else
            let '(w, ws) := pieces sep O r in
            (String c w, ws)
      end
  end.

(** [s.split(sep)] for a separator that is not empty: occurrences are taken
    from the left and do not overlap; the result always has a first piece. *)
Definition split (sep : string) (s : string) : list string :=
  let '(w, ws) := pieces sep O s in w :: ws.

(** [sep.join(l)] *)
Fixpoint join (sep : string) (l : list string) : string :=
  match l with
  | [] => EmptyString
  | [x] => x
  | x :: r => x ++ sep ++ join sep r
  end.

Fixpoint forallb_str (p : ascii -> bool) (s : string) : bool :=
  match s with
  | EmptyString => true
  | String c r => p c && forallb_str p r
  end.

Fixpoint filter_str (p : ascii -> bool) (s : string) : string :=
  match s with
  | EmptyString => EmptyString
  | String c r => if p c then String c (filter_str p r) else filter_str p r
  end.

Fixpoint count_str (p : ascii -> bool) (s : string) : nat :=
  match s with
  | EmptyString => O
  | String c r => (if p c then 1 else 0)%nat + count_str p r
  end.

(** [span p s]: the longest prefix of [s] whose characters satisfy [p], and
    what follows it. *)
Fixpoint span (p : ascii -> bool) (s : string) : string * string :=
  match s with
  | EmptyString => (EmptyString, EmptyString)
  | String c r =>
      if p c then let '(a, b) := span p r in (String c a, b)
      else (EmptyString, s)
  end.

(** [s.isascii()] *)
Definition ascii_only (s : string) : Prop := forallb_str is_ascii s = true.

End PyStr.

(** ** Python numbers *)

Module PyNum.
Import PyStr.

(** A [float] is an IEEE-754 binary64 value. *)
Definition prec : Z := 53.
Definition emax : Z := 1024.
Abbreviation float := spec_float.

(** [float(z)] for an [int]; exact when [|z| <= 2^53]. *)
Definition float_of_Z (z : Z) : float := binary_normalize prec emax z 0 false.

(** The binary64 value nearest to [n / d] (ties to even). *)
Definition float_of_ratio (n d : positive) : float :=
  let '(q, e, l) := SFdiv_core_binary prec emax (Zpos n) 0 (Zpos d) 0 in
  binary_round_aux prec emax false q e l.

(** The binary64 value nearest to [n * 10^e]: what [float()] returns for a
    decimal numeral with digits [n] and decimal exponent [e]. *)
Definition float_of_decimal (n : N) (e : Z) : float :=
  match n with
  | N0 => S754_zero false
  | Npos p =>
      if 0 <=? e then binary_round prec emax false (p * Z.to_pos (10 ^ e)) 0
      else float_of_ratio p (Z.to_pos (10 ^ (- e)))
  end.

Definition fmul (x y : float) : float := SFmul prec emax x y.

(** The value of a Python expression of type [int] or [float]. *)
Inductive number :=
| NInt (z : Z)
| NFloat (f : float).

(** [v < k] for an [int] constant [k] with [|k| <= 2^53]: Python compares
    an [int] and a [float] by value. *)
Definition lt_int (v : number) (k : Z) : bool :=
  match v with
  | NInt z => z <? k
  | NFloat f => SFltb f (float_of_Z k)
  end.

(** [v >= k], [v == k] under the same convention. *)
Definition ge_int (v : number) (k : Z) : bool :=
  match v with
  | NInt z => k <=? z
  | NFloat f => SFleb (float_of_Z k) f
  end.

Definition eq_int (v : number) (k : Z) : bool :=
  match v with
  | NInt z => z =? k
  | NFloat f => SFeqb f (float_of_Z k)
  end.

(** *** Numerals *)

Definition is_underscore (c : ascii) : bool := Ascii.eqb c "_".
Definition is_dot (c : ascii) : bool := Ascii.eqb c ".".
Definition is_e (c : ascii) : bool := Ascii.eqb c "e" || Ascii.eqb c "E".

(** What may follow a digit inside [digit (["_"] digit)*]; the result is the
    digits without the underscores. *)
Fixpoint digitpart_tail (s : string) : option string :=
  match s with
  | EmptyString => Some EmptyString
  | String c r =>
      if is_digit c then String c <$> digitpart_tail r
      else if is_underscore c then
        match r with
        | String d r' =>
            if is_digit d then String d <$> digitpart_tail r' else None
        | EmptyString => None
        end
      else None
  end.

Definition digitpart (s : string) : option string :=
  match s with
  | String c r => if is_digit c then String c <$> digitpart_tail r else None
  | EmptyString => None
  end.

Fixpoint digits_value (acc : Z) (s : string) : Z :=
  match s with
  | EmptyString => acc
  | String c r => digits_value (10 * acc + (code c - 48)) r
  end.

(** An optional sign, then the rest. *)
Definition signed (s : string) : bool * string :=
  match s with
  | String "-" r => (true, r)
  | String "+" r => (false, r)
  | _ => (false, s)
  end.

(** The white space that [int()] and [float()] pass over around an ASCII
    numeral: that of C ([Py_ISSPACE]), without the four separators that
    [str.strip] also removes. *)
Definition is_c_space (c : ascii) : bool :=
  ((9 <=? code c) && (code c <=? 13)) || (code c =? 32).

Fixpoint c_lstrip (s : string) : string :=
  match s with
  | EmptyString => EmptyString
  | String c r => if is_c_space c then c_lstrip r else s
  end.

Fixpoint c_rstrip (s : string) : string :=
  match s with
  | EmptyString => EmptyString
  | String c r =>
      let r' := c_rstrip r in
      if is_c_space c && is_empty r' then EmptyString else String c r'
  end.

Definition c_strip (s : string) : string := c_rstrip (c_lstrip s).

(** [sys.int_info.default_max_str_digits]: since CPython 3.11 (and the
    security releases of 3.7 to 3.10) [int()] refuses a decimal numeral of
    more digits. *)
Definition max_str_digits : Z := 4300.

(** [int(s)]: [None] stands for [ValueError]. *)
Definition py_int (s : string) : option Z :=
  let '(neg, body) := signed (c_strip s) in
  d ← digitpart body;
  if max_str_digits <? Z.of_nat (String.length d) then None
  else Some (if neg then - digits_value 0 d else digits_value 0 d).

(** [split_at p s]: the part before the first character satisfying [p], and
    the part after that character when there is one. *)
Fixpoint split_at (p : ascii -> bool) (s : string) : string * option string :=
  match s with
  | EmptyString => (EmptyString, None)
  | String c r =>
      if p c then (EmptyString, Some r)
      else let '(a, b) := split_at p r in (String c a, b)
  end.

(** [[digitpart] "." digitpart | digitpart ["."]]: the digits and how many
    of them follow the point. *)
Definition mantissa (s : string) : option (string * Z) :=
  match split_at is_dot s with
  | (ip, None) => d ← digitpart ip; Some (d, 0)
  | (ip, Some fp) =>
      if is_empty ip then
        f ← digitpart fp; Some (f, Z.of_nat (String.length f))
      else if is_empty fp then
        d ← digitpart ip; Some (d, 0)
      else
        d ← digitpart ip; f ← digitpart fp;
        Some (d ++ f, Z.of_nat (String.length f))
  end.

Definition exponent (s : option string) : option Z :=
  match s with
  | None => Some 0
  | Some t =>
      let '(neg, body) := signed t in
      d ← digitpart body;
      Some (if neg then - digits_value 0 d else digits_value 0 d)
  end.

(** [floatnumber | infinity | nan], without sign. *)
Definition float_abs (s : string) : option float :=
  let l := lower s in
  if String.eqb l "inf" || String.eqb l "infinity" then Some (S754_infinity false)
  else if String.eqb l "nan" then Some S754_nan
  else
    let '(m, x) := split_at is_e s in
    '(d, k) ← mantissa m;
    e ← exponent x;
    Some (float_of_decimal (Z.to_N (digits_value 0 d)) (e - k)).

(** [float(s)]: [None] stands for [ValueError]. *)
Definition py_float (s : string) : option float :=
  let '(neg, body) := signed (c_strip s) in
  f ← float_abs body;
  Some (if neg then SFopp f else f).

(** [str(z)] for an [int]. *)
Definition digit_char (d : Z) : ascii := ascii_of_N (Z.to_N (48 + d)).

Fixpoint nat_digits (fuel : nat) (z : Z) (acc : string) : string :=
  match fuel with
  | O => acc
  | S k =>
      let acc' := String (digit_char (z mod 10)) acc in
      if z <? 10 then acc' else nat_digits k (z / 10) acc'
  end.

Definition str_of_Z (z : Z) : string :=
  if z <? 0 then String "-" (nat_digits (Z.to_nat (Z.log2 (- z)) + 1) (- z) "")
  else nat_digits (Z.to_nat (Z.log2 z) + 1) z "".

(** *** [repr] of a float

[repr(x)] is the shortest decimal numeral that [float()] maps back to [x]
and, among those, the nearest to [x].  It is found by trying 1, 2, ... 17
significant digits. *)

Definition float_eqb (x y : float) : bool :=
match x, y with
| S754_zero a, S754_zero b => Bool.eqb a b
| S754_infinity a, S754_infinity b => Bool.eqb a b
| S754_nan, S754_nan => true
| S754_finite a m e, S754_finite b m' e' =>
    Bool.eqb a b && Pos.eqb m m' && Z.eqb e e'
| _, _ => false
end.

(** [m * 2^e] as a fraction. *)
Definition fraction_of (m : positive) (e : Z) : Z * Z :=
if 0 <=? e then (Zpos m * 2 ^ e, 1) else (Zpos m, 2 ^ (- e)).

(** [num / den * 10^k] as a fraction. *)
Definition scale10 (num den k : Z) : Z * Z :=
if 0 <=? k then (num * 10 ^ k, den) else (num, den * 10 ^ (- k)).

(** The least [k] from [k0] on with [num / den < 10^k]. *)
Fixpoint decimal_point (fuel : nat) (k0 num den : Z) : Z :=
match fuel with
| O => k0
| S fuel' =>
    let '(n, d) := scale10 num den (- k0) in
    if n <? d then k0 else decimal_point fuel' (k0 + 1) num den
end.

(** The [n]-digit numeral for [x = m * 2^e] that [float()] maps back to [x],
if there is one: the nearer of the two neighbours first. *)
Definition digits_at (x : float) (m : positive) (e : Z) (decpt : Z) (n : Z)
  : option Z :=
let '(num, den) := fraction_of m e in
let '(sn, sd) := scale10 num den (n - decpt) in
let low := sn / sd in
let rest := sn mod sd in
let high := low + 1 in
let back (c : Z) := float_eqb (float_of_decimal (Z.to_N c) (decpt - n)) x in
let low_first :=
  match 2 * rest ?= sd with
  | Lt => true
  | Gt => false
  | Eq => Z.even low
  end in
let '(c1, c2) := if low_first then (low, high) else (high, low) in
if back c1 then Some c1 else if back c2 then Some c2 else None.

Fixpoint shortest_digits (fuel : nat) (x : float) (m : positive) (e : Z)
  (decpt : Z) (n : Z) : Z * Z :=
match fuel with
| O => (0, n)
| S fuel' =>
    match digits_at x m e decpt n with
    | Some c => (c, n)
    | None => shortest_digits fuel' x m e decpt (n + 1)
    end
end.

Fixpoint zeros (n : nat) : string :=
match n with
| O => EmptyString
| S k => String "0" (zeros k)
end.

Fixpoint strip_zeros (s : string) : string :=
match s with
| EmptyString => EmptyString
| String c r =>
    let r' := strip_zeros r in
    if Ascii.eqb c "0" && is_empty r' then EmptyString else String c r'
end.

Fixpoint take (n : nat) (s : string) : string :=
match n, s with
| S k, String c r => String c (take k r)
| _, _ => EmptyString
end.

Fixpoint drop (n : nat) (s : string) : string :=
match n, s with
| S k, String _ r => drop k r
| _, _ => s
end.

(** The digits [ds] with the point after the first [decpt] of them, in the
layout of [repr]: an exponent when [decpt <= -4] or [decpt > 16]. *)
Definition layout (ds : string) (decpt : Z) : string :=
let n := Z.of_nat (String.length ds) in
if (decpt <=? -4) || (16 <? decpt) then
  let x := decpt - 1 in
  let mant :=
    match ds with
    | String c EmptyString => String c EmptyString
    | String c r => String c (String "." r)
    | EmptyString => EmptyString
    end in
  let xs := str_of_Z (Z.abs x) in
  mant ++ "e" ++ (if x <? 0 then "-" else "+")
       ++ (if Z.abs x <? 10 then "0" ++ xs else xs)
else if decpt <=? 0 then "0." ++ zeros (Z.to_nat (- decpt)) ++ ds
else if n <=? decpt then ds ++ zeros (Z.to_nat (decpt - n)) ++ ".0"
else take (Z.to_nat decpt) ds ++ "." ++ drop (Z.to_nat decpt) ds.

Definition float_repr (x : float) : string :=
match x with
| S754_nan => "nan"
| S754_infinity s => if s then "-inf" else "inf"
| S754_zero s => if s then "-0.0" else "0.0"
| S754_finite s m e =>
    let '(num, den) := fraction_of m e in
    let decpt := decimal_point 640 (-324) num den in
    let '(c, n) := shortest_digits 17 (S754_finite false m e) m e decpt 1 in
    (* a candidate [10^n] has one digit more *)
    let decpt' := if c =? 10 ^ n then decpt + 1 else decpt in
    let ds := strip_zeros (str_of_Z c) in
    (if s then "-" else "") ++ layout ds decpt'
end.

End PyNum.

(** ** Exceptions *)

Module PyExn.

Inductive exn :=
| ValueError
| IndexError
| AttributeError
| ZeroDivisionError
| UnicodeDecodeError
| RecursionError.

(** What evaluating an expression gives: a value, or an exception raised. *)
Inductive outcome (A : Type) :=
| Returns (a : A)
| Raises (e : exn).
Arguments Returns {A} a.
Arguments Raises {A} e.

Definition bind {A B} (m : outcome A) (k : A -> outcome B) : outcome B :=
match m with
| Returns a => k a
| Raises e => Raises e
end.

(** A library call that signals failure with the exception [e]. *)
Definition or_raise {A} (e : exn) (o : option A) : outcome A :=
match o with
| Some a => Returns a
| None => Raises e
end.

End PyExn.

(** ** [convert_price_to_number] *)

Module Price.
Import PyStr PyNum PyExn.

(** The three currency signs of the class [[$£€]], as UTF-8. *)
Definition currency : list string := ["$"; "£"; "€"].

Fixpoint drop_prefix (p s : string) : option string :=
match p, s with
| EmptyString, _ => Some s
| String a p', String b s' => if Ascii.eqb a b then drop_prefix p' s' else None
| String _ _, EmptyString => None
end.

(** [[$£€]?] at the head of [s]: what follows the sign when there is one. *)
Fixpoint skip_one_of (signs : list string) (s : string) : string :=
match signs with
| [] => s
| p :: signs' =>
    match drop_prefix p s with
    | Some r => r
    | None => skip_one_of signs' s
    end
end.

Definition is_m (c : ascii) : bool := Ascii.eqb c "m" || Ascii.eqb c "M".

(** The pattern of the source matched at the head of [s]: a currency sign
"[$£€]?", white space "\s*", group 1 "\d+\.?\d*", white space "\s*", then
"[mM]" and "(?:illion)?".  The result is group 1.

Every quantifier is greedy and, on this pattern, the greedy choice is the
only one that can succeed: a currency sign is neither white space nor a
digit, so leaving it gives no match; after a run of white space or of
digits was taken short the next character is again white space or a digit,
which neither [\d+] (after white space) nor [[mM]] accepts; the point, if
not taken, is not an [m]; and giving digits of [\d+] to [\d*] reaches the
same position as the greedy choice without a point.  So no backtracking is
modelled.  The trailing [(?:illion)?] always matches and is outside the
group. *)
Definition match_million_at (s : string) : option string :=
let s1 := skip_one_of currency s in
let '(_, s2) := span is_space s1 in
let '(int_part, s3) := span is_digit s2 in
if is_empty int_part then None
else
  let '(point, s4) :=
    match s3 with
    | String "." r => (".", r)
    | _ => ("", s3)
    end in
  let '(frac_part, s5) := span is_digit s4 in
  let '(_, s6) := span is_space s5 in
  match s6 with
  | String c _ =>
      if is_m c then Some (int_part ++ point ++ frac_part) else None
  | EmptyString => None
  end.

(** [re.search(pattern, s)]: the match at the leftmost position that has
one; the result is [match.group(1)]. *)
Fixpoint search_million (s : string) : option string :=
match match_million_at s with
| Some g => Some g
| None =>
    match s with
    | EmptyString => None
    | String _ r => search_million r
    end
end.

Definition is_num_char (c : ascii) : bool := is_digit c || is_dot c.

(** [re.findall(r'[\d.]+', s)] *)
Definition findall_numbers (s : string) : list string := runs is_num_char s.

(** The guarded search of the source: [re.search] is only called when the
text, in lower case, contains "million" or "m"; the result is
[match.group(1)] when the search was made and matched. *)
Definition million_match (price_text : string) : option string :=
if contains "million" (lower price_text) || contains "m" (lower price_text)
then search_million price_text
else None.

Definition convert_price_to_number (price_text : string) : outcome number :=
let price_text := replace_char "," "" (strip price_text) in
match million_match price_text with
| Some g =>
    bind (or_raise ValueError (py_float g)) (fun f =>
    Returns (NFloat (fmul f (float_of_Z 1000000))))
| None =>
    let numbers := findall_numbers price_text in
    match numbers with
    | _ :: _ =>
        bind (or_raise ValueError (py_float (join "" numbers))) (fun f =>
        Returns (NFloat f))
    | [] => Returns (NInt 0)
    end
end.

End Price.


(** ** The parsed document (BeautifulSoup) *)

Module Soup.
Import PyStr.

(** A node of the tree: a string of text, or a tag with its name, the words
of its [class] attribute, the names of its other attributes and its
children.  The document ([BeautifulSoup(html, 'html.parser')]) is itself a
tag, the root. *)
Inductive node :=
| Text (s : string)
| Tag (name : string) (classes : list string) (attrs : list string)
      (children : list node).

(** [tag.descendants]: every node below the tag, in document order. *)
Fixpoint descendants (n : node) : list node :=
match n with
| Text _ => []
| Tag _ _ _ kids =>
    (fix below (l : list node) : list node :=
       match l with
       | [] => []
       | k :: r => k :: descendants k ++ below r
       end) kids
end.

Definition mem (x : string) (l : list string) : bool :=
existsb (String.eqb x) l.

(** The filter of [find(name, class_=cls)]. *)
Definition is_tag (name cls : string) (n : node) : bool :=
match n with
| Tag nm classes _ _ => String.eqb nm name && mem cls classes
| Text _ => false
end.

(** The filter of [find(name)]. *)
Definition is_named (name : string) (n : node) : bool :=
match n with
| Tag nm _ _ _ => String.eqb nm name
| Text _ => false
end.

(** The filter of [find_all(name, attrs={a: True})]. *)
Definition has_attr (name a : string) (n : node) : bool :=
match n with
| Tag nm _ attrs _ => String.eqb nm name && mem a attrs
| Text _ => false
end.

(** [tag.find(...)]: the first descendant that passes the filter. *)
Definition find (p : node -> bool) (n : node) : option node :=
List.find p (descendants n).

(** [tag.find_all(...)]: the descendants that pass the filter. *)
Definition find_all (p : node -> bool) (n : node) : list node :=
List.filter p (descendants n).

(** The strings below a node, in document order. *)
Definition strings (n : node) : list string :=
match n with
| Text s => [s]
| Tag _ _ _ _ =>
    List.flat_map (fun d => match d with Text s => [s] | Tag _ _ _ _ => [] end)
                  (descendants n)
end.

(** [tag.text], that is [tag.get_text()] *)
Definition text (n : node) : string := join "" (strings n).

(** [tag.get_text(strip=True)]: each string stripped, the empty ones left
out. *)
Definition get_text_strip (n : node) : string :=
join "" (List.filter (fun s => negb (is_empty s)) (List.map strip (strings n))).

End Soup.

(** ** JSON values, as [json.dump] writes and [json.load] returns them *)

Module Json.
Import PyNum.

(** A [dict] is the list of its items in insertion order. *)
Inductive json :=
| JNull
| JBool (b : bool)
| JNum (v : number)
| JStr (s : string)
| JArr (items : list json)
| JObj (items : list (string * json)).

Definition keys (j : json) : list string :=
match j with
| JObj items => List.map fst items
| _ => []
end.

(** [d[k]] *)
Fixpoint assoc (k : string) (items : list (string * json)) : option json :=
match items with
| [] => None
| (k', v) :: r => if String.eqb k k' then Some v else assoc k r
end.

Definition get (k : string) (j : json) : option json :=
match j with
| JObj items => assoc k items
| _ => None
end.

End Json.

(** ** [process_listing] *)

Module Listing.
Import PyStr PyNum PyExn Price Soup Json.

(** [a or b] on the results of two [find]s: a tag is always true. *)
Definition or_else {A} (a b : option A) : option A :=
match a with
| Some _ => a
| None => b
end.

(** Lines 47-75: the price text and the status of a listing. *)
Definition price_and_status (listing : node) : string * string :=
let price_container :=
  or_else (find (is_tag "p" "price-container") listing)
          (find (is_tag "p" "price") listing) in
match price_container with
| None => ("", "")
| Some price_container =>
    let all_text := get_text_strip price_container in
    let price_parts := split_ws all_text in
    let '(price_text, status) :=
      match price_parts with
      | [] => ("", "")
      | first :: rest =>
          if String.eqb first "Est" && (1 <? Z.of_nat (length price_parts))
          then (nth 1 price_parts "", "Estimated Price")
          else (first,
                if 1 <? Z.of_nat (length price_parts) then join " " rest
                else "")
      end in
    match find (is_tag "span" "status-pill") price_container with
    | Some status_tag => (price_text, get_text_strip status_tag)
    | None => (price_text, status)
    end
end.

(** The three optional details of a listing. *)
Record details := {
  beds : option Z;
  baths : option float;
  sqft : option Z
}.

(** [text.split()[0]]: [None] stands for [IndexError]. *)
Definition first_word (text : string) : option string :=
match split_ws text with
| w :: _ => Some w
| [] => None
end.

(** One turn of the loop over the items of the details list.  A parse that
raises [ValueError] or [IndexError] is caught and leaves the field as it
was. *)
Definition read_detail (d : details) (li : node) : details :=
let text := strip (Soup.text li) in
if contains "Beds" text then
  match first_word text ≫= py_int with
  | Some n => {| beds := Some n; baths := baths d; sqft := sqft d |}
  | None => d
  end
else if contains "Baths" text then
  match first_word text ≫= py_float with
  | Some x => {| beds := beds d; baths := Some x; sqft := sqft d |}
  | None => d
  end
else if contains "Sq Ft" text then
  match first_word text ≫= (fun w => py_int (replace_char "," "" w)) with
  | Some n => {| beds := beds d; baths := baths d; sqft := Some n |}
  | None => d
  end
else d.

(** Lines 77-96. *)
Definition read_details (listing : node) : details :=
let none := {| beds := None; baths := None; sqft := None |} in
match find (is_tag "ul" "detailed-info-container") listing with
| Some details_container =>
    fold_left read_detail (find_all (is_named "li") details_container) none
| None => none
end.

(** [tag.text.strip() if tag else ''] *)
Definition text_or_empty (tag : option node) : string :=
match tag with
| Some t => strip (Soup.text t)
| None => ""
end.

(** Lines 101-115: the agent and the agency. *)
Definition agent_and_agency (listing : node) : string * string :=
let agent_detail :=
  match find (is_tag "div" "description-container") listing with
  | Some description_container =>
      find (is_tag "p" "agent-detail") description_container
  | None => find (is_tag "p" "agent-detail") listing
  end in
match agent_detail with
| Some agent_detail =>
    (text_or_empty (find (is_tag "span" "agent-name") agent_detail),
     text_or_empty (find (is_tag "span" "agency-name") agent_detail))
| None => ("", "")
end.

(** [f"{x}"] for an optional [int] and an optional [float]. *)
Definition fmt_int (x : option Z) : string :=
match x with
| Some n => str_of_Z n
| None => "None"
end.

Definition fmt_float (x : option float) : string :=
match x with
| Some f => float_repr f
| None => "None"
end.

(** The configured threshold: properties worth 1.5 million or more. *)
Definition price_threshold : Z := 1500000.

(** The dictionary of lines 126-135. *)
Definition property_details (address_text price_text : string)
  (price_value : number) (status : string) (d : details)
  (agent agency : string) : json :=
JObj [ ("Found high-value property:", JStr "✓");
       ("Address:", JStr address_text);
       ("Price:", JStr price_text);
       ("Price Value", JNum price_value);
       ("Status:", JStr (if is_empty status then "Not Listed For Sale"
                         else status));
       ("Beds:", JStr (fmt_int (beds d) ++ ", Baths: " ++ fmt_float (baths d)
                       ++ ", Sq Ft: " ++ fmt_int (sqft d)));
       ("Agent:", JStr agent);
       ("Agency:", JStr agency) ].

(** [process_listing]: [None] is Python's [None].  The description of the
listing is read by the source and not used; the log lines are left out.
The only call that can raise is [convert_price_to_number], and the handler
[except Exception] turns that into [None]. *)
Definition process_listing (listing : node) : option json :=
let '(price_text, status) := price_and_status listing in
let d := read_details listing in
let address_text := text_or_empty (find (is_tag "p" "property-name") listing) in
let '(agent, agency) := agent_and_agency listing in
match convert_price_to_number price_text with
| Returns price_value =>
    if lt_int price_value price_threshold then None
    else Some (property_details address_text price_text price_value status d
                                agent agency)
| Raises _ => None
end.

End Listing.

(** ** The world around the script: network, disk, clock *)

Module World.
Import PyStr PyNum PyExn Soup Json.

(** What [session.get(url)] gives: a response with its status and its body
as parsed by BeautifulSoup, or an exception of the network layer. *)
Inductive response :=
| Response (status : Z) (soup : node)
| ConnectionError.

(** Why [json.load] can fail on a file with another exception than
[JSONDecodeError]: the bytes are not UTF-8 text ([UnicodeDecodeError]), a
number has more than [max_str_digits] digits (a plain [ValueError]), or the
arrays and objects are nested too deep ([RecursionError]). *)
Inductive read_error :=
| NotUtf8
| LongNumber
| DeepNesting.

Definition raised_by (why : read_error) : exn :=
match why with
| NotUtf8 => UnicodeDecodeError
| LongNumber => ValueError
| DeepNesting => RecursionError
end.

(** A file holds a JSON document that [json.load] returns, or text that
[json.load] rejects with [JSONDecodeError], or something on which
[json.load] fails in another way.  [json.dump] followed by [json.load] is
the identity on documents, so the JSON text itself is not modelled; nor are
the failures of the operating system on [open] for reading. *)
Inductive file :=
| FJson (j : json)
| FOther (raw : string)
| FUnreadable (why : read_error).

(** What an attempt to write a file does: it succeeds, or it raises and
leaves the file untouched ([None]) or in some other condition, such as text
cut short, possibly inside a character. *)
Inductive write_result :=
| Written
| WriteFailed (residue : option file).

(** The effects the claims speak about, in the order they happen. *)
Inductive event :=
| EvGet (url : string)
| EvSleep (seconds : Z)
| EvSleepUniform (lo hi : Q)
| EvWrite (path : string) (content : json) (ok : bool).

(** The environment answers: [net k url] is the response to the request
number [k] of the run when it is made to [url]; [disk k] is the fate of the
write number [k]; [clock n] is [int(time.time())] after [n] events. *)
Record env := {
  net : nat -> string -> response;
  disk : nat -> write_result;
  clock : nat -> Z
}.

Record state := {
  trace : list event;
  files : gmap string file
}.

Definition is_get (ev : event) : bool :=
match ev with EvGet _ => true | _ => false end.

Definition is_write (ev : event) : bool :=
match ev with EvWrite _ _ _ => true | _ => false end.

(** The URLs requested, in order. *)
Definition requests (tr : list event) : list string :=
List.flat_map (fun ev => match ev with EvGet u => [u] | _ => [] end) tr.

Definition writes (tr : list event) : nat := length (List.filter is_write tr).

(** A computation reads the environment and threads the state. *)
Definition M (A : Type) : Type := env -> state -> A * state.

Definition ret {A} (a : A) : M A := fun _ st => (a, st).

Definition bind {A B} (m : M A) (k : A -> M B) : M B :=
fun e st => let '(a, st') := m e st in k a e st'.

Definition emit (ev : event) (st : state) : state :=
{| trace := (trace st ++ [ev])%list; files := files st |}.

(** [async with session.get(url) as response] *)
Definition http_get (url : string) : M response :=
fun e st => (net e (length (requests (trace st))) url, emit (EvGet url) st).

(** [await asyncio.sleep(seconds)] *)
Definition sleep (seconds : Z) : M unit :=
fun _ st => (tt, emit (EvSleep seconds) st).

(** [await asyncio.sleep(random.uniform(lo, hi))] *)
Definition sleep_uniform (lo hi : Q) : M unit :=
fun _ st => (tt, emit (EvSleepUniform lo hi) st).

(** [int(time.time())] *)
Definition now : M Z := fun e st => (clock e (length (trace st)), st).

(** [with open(path, 'w') as f: json.dump(content, f, ...)]; the result
tells whether it went through ([false]: an exception was raised). *)
Definition write_json (path : string) (content : json) : M bool :=
fun e st =>
  match disk e (writes (trace st)) with
  | Written =>
      (true, {| trace := (trace st ++ [EvWrite path content true])%list;
                files := <[path := FJson content]> (files st) |})
  | WriteFailed residue =>
      (false, {| trace := (trace st ++ [EvWrite path content false])%list;
                 files := match residue with
                          | Some left_over => <[path := left_over]> (files st)
                          | None => files st
                          end |})
  end.

(** [os.path.exists(path)] and then [open]: [None] when there is no file,
else what the file holds. *)
Definition read_file (path : string) : M (option file) :=
fun _ st => (files st !! path, st).

End World.

(** The computations form a monad, written with [x <- m ; k] and [m ;;; k]. *)
Declare Scope world_scope.
Delimit Scope world_scope with world.
Notation "x <- m ; k" := (World.bind m (fun x => k))
  (at level 20, m at level 100, k at level 200, only parsing) : world_scope.
Notation "' p <- m ; k" := (World.bind m (fun p => k))
  (at level 20, p pattern, m at level 100, k at level 200, only parsing)
  : world_scope.
Notation "m ;;; k" := (World.bind m (fun _ => k))
  (at level 100, k at level 200, only parsing, right associativity)
  : world_scope.

(** ** [scrape_page] and [scrape_real_estate_listings] *)

Module Scraper.
Import PyStr PyNum PyExn Price Soup Json Listing World.
Local Open Scope world_scope.

(** [range(n)] *)
Definition range (n : Z) : list Z := List.map Z.of_nat (seq 0 (Z.to_nat n)).

(** The listing containers of a page: the two kinds of container, else the
tags carrying [data-nosnippet] (lines 172-182 and 302-310). *)
Definition listing_elements (soup : node) : list node :=
let found :=
  (find_all (is_tag "div" "for-sale-content-container") soup
   ++ find_all (is_tag "div" "off-market-content-container") soup)%list in
match found with
| _ :: _ => found
| [] => find_all (has_attr "div" "data-nosnippet") soup
end.

(** [[r for r in results if r is not None]] *)
Fixpoint keep_some {A} (l : list (option A)) : list A :=
match l with
| [] => []
| Some a :: r => a :: keep_some r
| None :: r => keep_some r
end.

(** Lines 170-193.  [process_listing] does not wait on anything, so the
tasks gathered under the semaphore run one after the other, and [gather]
returns their results in the order of the listings. *)
Definition extract_records (soup : node) : list json :=
keep_some (List.map process_listing (listing_elements soup)).

(** The loop of [scrape_page] over the attempts still to make. *)
Fixpoint scrape_page_attempts (max_retries retry_delay : Z)
  (attempts : list Z) (url : string) : M (list json) :=
match attempts with
| [] => ret []
| attempt :: later =>
    response <- http_get url ;
    match response with
    | Response status soup =>
        if status =? 403 then
          if attempt <? max_retries - 1 then
            sleep retry_delay ;;;
            scrape_page_attempts max_retries retry_delay later url
          else ret []
        else if negb (status =? 200) then ret []
        else ret (extract_records soup)
    | ConnectionError =>
        if attempt <? max_retries - 1 then
          sleep retry_delay ;;;
          scrape_page_attempts max_retries retry_delay later url
        else ret []
    end
end.

Definition max_retries : Z := 1.
Definition retry_delay : Z := 2.

Definition scrape_page (url : string) : M (list json) :=
scrape_page_attempts max_retries retry_delay (range max_retries) url.

(** Lines 208-219. *)
Definition base_url_of (location : string) : string :=
let location_parts := split "/" (lower (strip location)) in
if 1 <? Z.of_nat (length location_parts) then
  "https://www.homes.com/" ++ nth 0 location_parts "" ++ "/"
    ++ nth 1 location_parts "" ++ "-neighborhood/all-inventory"
else
  "https://www.homes.com/" ++ replace_char " " "-" (lower (strip location))
    ++ "/all-inventory".

(** Lines 267-277. *)
Definition page_url (base_url : string) (page : Z) : string :=
if 1 <? page then
  if contains "neighborhood" base_url then
    rstrip_char "/" base_url ++ "/p" ++ str_of_Z page ++ "/"
  else base_url ++ "/p" ++ str_of_Z page ++ "/"
else base_url ++ "/".

(** Lines 222-233: the records of an earlier run.  The handler catches
[json.JSONDecodeError] only, so any other exception of [json.load] leaves
the function. *)
Definition load_existing (output_file : string) : M (outcome (list json)) :=
existing <- read_file output_file ;
ret match existing with
    | Some (FJson (JArr existing_data)) => Returns existing_data
    | Some (FJson _) => Returns []
    | Some (FOther _) => Returns []
    | Some (FUnreadable why) => Raises (raised_by why)
    | None => Returns []
    end.

(** Lines 243-254, inside the [try]: the total read from the page. *)
Definition read_total_pages (soup : node) : outcome Z :=
match find (is_tag "p" "search-results") soup with
| Some search_results =>
    match find (is_named "span") search_results with
    | Some page_info =>
        PyExn.bind (or_raise IndexError
                      (nth_error (split "of" (Soup.text page_info)) 1))
                   (fun part => or_raise ValueError (py_int (strip part)))
    | None => Returns 1
    end
| None => Returns 1
end.

(** Lines 238-260. *)
Definition get_total_pages (base_url : string) : M Z :=
response <- http_get base_url ;
ret match response with
    | Response status soup =>
        if status =? 200 then
          match read_total_pages soup with
          | Returns total_pages => total_pages
          | Raises _ => 1
          end
        else 1
    | ConnectionError => 1
    end.

(** Why the loop over the pages stops. *)
Inductive stop :=
| NotFound
| BadStatus
| ErrorMarker
| NoListings
| NoNextPage
| NoPagination
| PageError.

Inductive verdict :=
| Continue
| Stop (why : stop).

(** Lines 327-340: the save after a page, with its backup. *)
Definition save (output_file : string) (properties : list json) : M unit :=
ok <- write_json output_file (JArr properties) ;
if ok then ret tt
else
  t <- now ;
  write_json (output_file ++ "_backup_" ++ str_of_Z t ++ ".json")
             (JArr properties) ;;;
  ret tt.

(** Lines 346-360: the check for a next page. *)
Definition next_page_check (soup : node) (page total_pages : Z) : verdict :=
match find (is_tag "div" "pagination") soup with
| Some pagination =>
    match find (is_tag "a" "next-page") pagination with
    | Some _ => Continue
    | None => Stop NoNextPage
    end
| None =>
    match find (is_tag "p" "search-results") soup with
    | Some _ => if page <? total_pages then Continue else Stop NoPagination
    | None => Stop NoPagination
    end
end.

(** Lines 266-371: the body of the loop for one page.  It returns the
verdict and the collection in memory. *)
Definition scrape_one_page (base_url output_file : string)
  (total_pages page : Z) (properties : list json)
  : M (verdict * list json) :=
let current_url := page_url base_url page in
sleep_uniform (1 # 2) (3 # 2) ;;;
response <- http_get current_url ;
match response with
| ConnectionError => ret (Stop PageError, properties)
| Response status soup =>
    if status =? 404 then ret (Stop NotFound, properties)
    else if negb (status =? 200) then ret (Stop BadStatus, properties)
    else
      match find (is_tag "div" "error-container") soup with
      | Some _ => ret (Stop ErrorMarker, properties)
      | None =>
          page_listings <- scrape_page current_url ;
          match page_listings with
          | _ :: _ =>
              let properties := (properties ++ page_listings)%list in
              save output_file properties ;;;
              ret (next_page_check soup page total_pages, properties)
          | [] => ret (Stop NoListings, properties)
          end
      end
end.

(** [while page <= total_pages]: [remaining] is [total_pages + 1 - page], so
it is zero exactly when the condition fails, and each turn that continues
adds one to [page].  The result is the page reached, the collection and the
reason of a [break], if any. *)
Fixpoint pages_loop (remaining : nat) (base_url output_file : string)
  (total_pages page : Z) (properties : list json)
  : M (Z * list json * option stop) :=
match remaining with
| O => ret (page, properties, None)
| S remaining' =>
    '(v, properties) <- scrape_one_page base_url output_file total_pages page
                                        properties ;
    match v with
    | Continue =>
        pages_loop remaining' base_url output_file total_pages (page + 1)
                   properties
    | Stop why => ret (page, properties, Some why)
    end
end.

(** Line 375: the last log line computes [(page - 1) / total_pages], outside
every [try]; the division of two [int]s raises exactly on a zero divisor. *)
Definition closing_log (page total_pages : Z) : outcome unit :=
if total_pages =? 0 then Raises ZeroDivisionError else Returns tt.

(** [scrape_real_estate_listings]: the collection returned, or the
exception that leaves the function (from the load at the start, or from
the last log line). *)
Definition scrape_real_estate_listings (location output_file : string)
  : M (outcome (list json)) :=
let page := 1 in
let base_url := base_url_of location in
existing <- load_existing output_file ;
match existing with
| Raises exc => ret (Raises exc)
| Returns properties =>
    total_pages <- get_total_pages base_url ;
    '(page, properties, _) <-
       pages_loop (Z.to_nat (total_pages + 1 - page)) base_url output_file
                  total_pages page properties ;
    ret (PyExn.bind (closing_log page total_pages)
                    (fun _ => Returns properties))
end.

End Scraper.

(** ** [main] *)

Module Main.
Import PyStr PyNum PyExn Soup Json Listing World Scraper.
Local Open Scope world_scope.

(** The exceptions that can leave [main]: [len()] of a value without a
length, [extend] on a value that is not a list, a write that fails, and
what the load of the output file or a run raises. *)
Inductive crash :=
| LenTypeError
| ExtendAttributeError
| WriteError
| Raised (exc : exn).

(** How [main] ends: normally with [all_properties], or with an exception
that the handler logs and raises again. *)
Inductive ending :=
| Done (all_properties : json)
| Crashed (why : crash).

Definition is_cr (c : ascii) : bool := Ascii.eqb c (ascii_of_N 13).
Definition is_lf (c : ascii) : bool := Ascii.eqb c (ascii_of_N 10).

(** Reading in text mode: "\r\n" and "\r" are read as "\n". *)
Fixpoint universal_newlines (s : string) : string :=
match s with
| EmptyString => EmptyString
| String c r =>
    if is_cr c then
      match r with
      | String d r' =>
          if is_lf d then String d (universal_newlines r')
          else String (ascii_of_N 10) (universal_newlines r)
      | EmptyString => String (ascii_of_N 10) EmptyString
      end
    else String c (universal_newlines r)
end.

(** [lines_from s]: the line that starts at the head of [s], with its
"\n", and the lines after it. *)
Fixpoint lines_from (s : string) : string * list string :=
match s with
| EmptyString => (EmptyString, [])
| String c r =>
    let '(w, ws) := lines_from r in
    if is_lf c then (String c EmptyString, cons_run w ws)
    else (String c w, ws)
end.

(** [file.readlines()] *)
Definition readlines (raw : string) : list string :=
let '(w, ws) := lines_from (universal_newlines raw) in cons_run w ws.

(** Whether [len(j)] is defined. *)
Definition has_len (j : json) : bool :=
match j with
| JArr _ | JObj _ | JStr _ => true
| JNull | JBool _ | JNum _ => false
end.

(** Lines 400-410: [all_properties] at the start.  [json.load] may give any
JSON value; [len()] of it is taken for the log line.  As in
[load_existing], only [json.JSONDecodeError] is caught. *)
Definition load_all (output_file : string) : M ending :=
existing <- read_file output_file ;
ret match existing with
    | Some (FJson j) => if has_len j then Done j else Crashed LenTypeError
    | Some (FOther _) => Done (JArr [])
    | Some (FUnreadable why) => Crashed (Raised (raised_by why))
    | None => Done (JArr [])
    end.

(** Lines 418-431: the loop over the lines of the input file. *)
Fixpoint main_loop (locations : list string) (output_file : string)
  (all_properties : json) : M ending :=
match locations with
| [] => ret (Done all_properties)
| location :: later =>
    let location := strip location in
    if is_empty location then main_loop later output_file all_properties
    else
      run <- scrape_real_estate_listings location output_file ;
      match run with
      | Raises exc => ret (Crashed (Raised exc))
      | Returns properties =>
          existing <- read_file output_file ;
          match existing with
          | None =>
              match all_properties with
              | JArr l =>
                  let all_properties := JArr (l ++ properties) in
                  ok <- write_json output_file all_properties ;
                  if ok then
                    sleep_uniform 1 2 ;;;
                    main_loop later output_file all_properties
                  else ret (Crashed WriteError)
              | _ => ret (Crashed ExtendAttributeError)
              end
          | Some _ =>
              sleep_uniform 1 2 ;;;
              main_loop later output_file all_properties
          end
      end
end.

(** [main]: [input_txt] is the text of "input.txt", [None] when the file
does not exist. *)
Definition main (input_txt : option string) : M ending :=
match input_txt with
| None => ret (Done (JArr []))
| Some raw =>
    let output_file := "output.json" in
    start <- load_all output_file ;
    match start with
    | Done all_properties =>
        main_loop (readlines raw) output_file all_properties
    | Crashed why => ret (Crashed why)
    end
end.

End Main.

(** ** Sample pages, for the examples and the witnesses *)

Module Samples.
Import PyStr PyNum PyExn Price Soup Json Listing World Scraper.

(** A listing container with a price text and the usual details. *)
Definition listing_of (price : string) : node :=
Tag "div" ["for-sale-content-container"] []
  [ Tag "p" ["price-container"] [] [Text price];
    Tag "p" ["property-name"] [] [Text " 12 Ocean Ave "];
    Tag "ul" ["detailed-info-container"] []
      [ Tag "li" [] [] [Text "4 Beds"];
        Tag "li" [] [] [Text "3.5 Baths"];
        Tag "li" [] [] [Text "2,950 Sq Ft"] ];
    Tag "p" ["agent-detail"] []
      [ Tag "span" ["agent-name"] [] [Text "Ann Agent"];
        Tag "span" ["agency-name"] [] [Text "Shore Realty"] ] ].


Definition document (body : list node) : node := Tag "[document]" [] [] body.

(** The marker of the number of pages, as on the site. *)
Definition search_results (txt : string) : node :=
Tag "p" ["search-results"] [] [Tag "span" [] [] [Text txt]].

Definition pagination (with_next : bool) : node :=
Tag "div" ["pagination"] []
  (if with_next then [Tag "a" ["next-page"] [] [Text "Next"]] else []).

(** A page with one qualifying listing, no pagination block and no
search-results marker. *)
Definition plain_page : node := document [listing_of "$2.5M"].

(** A page with only a listing below the threshold. *)
Definition cheap_page : node := document [listing_of "$950,000"].

Definition empty_state : state := {| trace := []; files := ∅ |}.

(** A server that answers every request with the same response. *)
Definition constant_env (r : response) : env :=
{| net := fun _ _ => r; disk := fun _ => Written; clock := fun _ => 1700000000 |}.

(** A server that answers the requests in turn from a list, then with
[last]. *)
Definition scripted_env (rs : list response) (last : response)
  (d : nat -> write_result) : env :=
{| net := fun k _ => nth k rs last; disk := d; clock := fun _ => 1700000000 |}.

(** A page with a qualifying listing and a pagination block that has a
next-page link. *)
Definition page_with_next : node :=
document [listing_of "$2.5M"; pagination true].

(** A server whose first answer is 403 and whose second answer is a page
with a qualifying listing. *)
Definition forbidden_once : env :=
scripted_env [Response 403 (document []); Response 200 plain_page]
             ConnectionError (fun _ => Written).

(** A server that shows a full page to the first request and a page
without qualifying listings to the second. *)
Definition changing_server : env :=
scripted_env [Response 200 page_with_next; Response 200 cheap_page]
             ConnectionError (fun _ => Written).

(** A disk on which every write fails and leaves the file untouched. *)
Definition broken_disk (r : response) : env :=
{| net := fun _ _ => r; disk := fun _ => WriteFailed None;
   clock := fun _ => 1700000000 |}.

End Samples.

(** ** The specification's own wording, for the claims that compare *)

Module Claimed.
Import PyNum Json.

Definition is_string (j : json) : bool :=
match j with JStr _ => true | _ => false end.

Definition is_number (j : json) : bool :=
match j with JNum _ => true | _ => false end.

Definition is_int_or_null (j : json) : bool :=
match j with JNull | JNum (NInt _) => true | _ => false end.

Definition is_decimal_or_null (j : json) : bool :=
match j with JNull | JNum (NFloat _) => true | _ => false end.

(** Section 6 of the specification: an object with exactly the fields
address, price text, normalized price (number), status, beds (integer or
null), baths (decimal or null), square footage (integer or null), agent,
agency. *)
Definition claimed_record (r : json) : bool :=
match r with
| JObj [ (_, address); (_, price_text); (_, price); (_, status); (_, beds);
         (_, baths); (_, sqft); (_, agent); (_, agency) ] =>
    is_string address && is_string price_text && is_number price
    && is_string status && is_int_or_null beds && is_decimal_or_null baths
    && is_int_or_null sqft && is_string agent && is_string agency
| _ => false
end.

End Claimed.

(** ** Notions used to state the claims on the traversal *)

Module Traversal.
Import PyNum Soup Json Listing World Scraper.

(** The records that [scrape_page] draws from a response. *)
Definition records_of (r : response) : list json :=
match r with
| Response status soup => if status =? 200 then extract_records soup else []
| ConnectionError => []
end.

Definition found {A} (o : option A) : bool :=
match o with Some _ => true | None => false end.

(** What the continuation decision looks at, for a page that was answered:
the status and the parsed page of the orchestrator's own request, the
number of listings processed, the page index and the total. *)
Record observation := {
  status : Z;
  error_marker : bool;
  processed : nat;
  pagination_block : bool;
  next_page : bool;
  results_marker : bool;
  page_index : Z;
  total : Z
}.

Definition observe (status : Z) (soup : node) (page_listings : list json)
  (page total_pages : Z) : observation :=
{| status := status;
   error_marker := found (find (is_tag "div" "error-container") soup);
   processed := length page_listings;
   pagination_block := found (find (is_tag "div" "pagination") soup);
   next_page :=
     match find (is_tag "div" "pagination") soup with
     | Some pagination => found (find (is_tag "a" "next-page") pagination)
     | None => false
     end;
   results_marker := found (find (is_tag "p" "search-results") soup);
   page_index := page;
   total := total_pages |}.

(** The decision as the specification words it (section 4.4): without a
pagination block, continue whenever the page index is below the total. *)
Definition claimed_verdict (o : observation) : verdict :=
if status o =? 404 then Stop NotFound
else if negb (status o =? 200) then Stop BadStatus
else if error_marker o then Stop ErrorMarker
else if Nat.eqb (processed o) 0 then Stop NoListings
else if pagination_block o then
  if next_page o then Continue else Stop NoNextPage
else if page_index o <? total o then Continue
else Stop NoPagination.

(** The decision as amended: without a pagination block, the page must also
carry the search-results marker. *)
Definition amended_verdict (o : observation) : verdict :=
if status o =? 404 then Stop NotFound
else if negb (status o =? 200) then Stop BadStatus
else if error_marker o then Stop ErrorMarker
else if Nat.eqb (processed o) 0 then Stop NoListings
else if pagination_block o then
  if next_page o then Continue else Stop NoNextPage
else if results_marker o && (page_index o <? total o) then Continue
else Stop NoPagination.

(** One page handled with a single fetch: the same response serves the
checks and the extraction. *)
Definition one_fetch_outcome (r : response) (total_pages page : Z)
  (properties : list json) : verdict * list json :=
match r with
| ConnectionError => (Stop PageError, properties)
| Response status soup =>
    if status =? 404 then (Stop NotFound, properties)
    else if negb (status =? 200) then (Stop BadStatus, properties)
    else if found (find (is_tag "div" "error-container") soup)
    then (Stop ErrorMarker, properties)
    else
      match extract_records soup with
      | [] => (Stop NoListings, properties)
      | page_listings =>
          (next_page_check soup page total_pages,
           (properties ++ page_listings)%list)
      end
end.

End Traversal.

(** ** Notions used to state further properties *)

Module Details.
Import PyStr PyNum Soup Json Listing.






End Details.

Module Retry.
Import PyNum Soup Json Listing World Scraper.

(** The records of a list of listing nodes. *)
Definition records (nodes : list node) : list json :=
keep_some (List.map process_listing nodes).

(** The responses after which [scrape_page] would try again: status 403,
or an exception. *)
Definition retryable (r : response) : bool :=
match r with
| Response status _ => status =? 403
| ConnectionError => true
end.

(** [n] further attempts, each after a sleep. *)
Fixpoint retries (n : nat) (delay : Z) (url : string) : list event :=
match n with
| O => []
| S k => EvSleep delay :: EvGet url :: retries k delay url
end.

End Retry.

Module Run.
Import PyNum PyExn Soup Json Listing World Scraper.

(** A record that carries a price at or above the threshold. *)
Definition priced (r : json) : Prop :=
exists v, get "Price Value" r = Some (JNum v)
          /\ ge_int v price_threshold = true.

(** What a run ends with, the collection returned or the exception raised,
and the state it leaves. *)
Definition collected (location output_file : string) (e : env) (st : state)
  : outcome (list json) :=
fst (scrape_real_estate_listings location output_file e st).

Definition final_state (location output_file : string) (e : env) (st : state)
  : state :=
snd (scrape_real_estate_listings location output_file e st).

(** The exception that the load of the output file lets through, if any. *)
Definition load_failure (output_file : string) (st : state) : option exn :=
match files st !! output_file with
| Some (FUnreadable why) => Some (raised_by why)
| _ => None
end.

(** The collection that a run starts from. *)
Definition loaded (output_file : string) (st : state) : list json :=
match files st !! output_file with
| Some (FJson (JArr existing_data)) => existing_data
| _ => []
end.

End Run.
(** * Properties

    ** The models of the library functions on the examples of the sources *)

Example strip_ex : PyStr.strip "  $2.5M  " = "$2.5M".
Proof. reflexivity. Qed.
Example split_ws_ex : PyStr.split_ws " Est  $3.2M New " = ["Est"; "$3.2M"; "New"].
Proof. reflexivity. Qed.
Example split_ex : PyStr.split "of" "Page 1 of 12" = ["Page 1 "; " 12"].
Proof. reflexivity. Qed.
Example split_ex2 : PyStr.split "of" "ofoof" = [""; "o"; ""].
Proof. reflexivity. Qed.

Example py_int_ex : PyNum.py_int " 12" = Some 12.
Proof. reflexivity. Qed.
Example py_int_ex2 : PyNum.py_int "1_000" = Some 1000 /\ PyNum.py_int "1__0" = None
                   /\ PyNum.py_int "-7" = Some (-7) /\ PyNum.py_int "" = None.
Proof. repeat split. Qed.
Example str_of_Z_ex : PyNum.str_of_Z 1203 = "1203" /\ PyNum.str_of_Z 0 = "0"
                    /\ PyNum.str_of_Z (-45) = "-45".
Proof. repeat split. Qed.
(** [float("0.1")] is [0x1.999999999999ap-4], [float("2.5")] is exact. *)
Example py_float_ex :
PyNum.py_float "0.1" = Some (S754_finite false 7205759403792794 (-56))
/\ PyNum.py_float "2.5" = Some (S754_finite false 5629499534213120 (-51))
/\ PyNum.py_float "1.2.3" = None /\ PyNum.py_float "." = None
/\ PyNum.py_float "1." = Some (PyNum.float_of_Z 1)
/\ PyNum.py_float ".5e1" = Some (PyNum.float_of_Z 5).
Proof. vm_compute. repeat split. Qed.

Example convert_ex1 :
  Price.convert_price_to_number "$2.5M" = PyExn.Returns (PyNum.NFloat (PyNum.float_of_Z 2500000)).
Proof. vm_compute. reflexivity. Qed.
Example convert_ex2 :
  Price.convert_price_to_number "1.2.3" = PyExn.Raises PyExn.ValueError.
Proof. vm_compute. reflexivity. Qed.
Example convert_ex3 :
  Price.convert_price_to_number "£1.2.3 million" = PyExn.Returns (PyNum.NFloat (PyNum.float_of_Z 2300000)).
Proof. vm_compute. reflexivity. Qed.
Example convert_ex4 :
  Price.convert_price_to_number "$1.1M" = PyExn.Returns (PyNum.NFloat (PyNum.float_of_Z 1100000)).
Proof. vm_compute. reflexivity. Qed.


Example float_repr_ex :
  (PyNum.float_repr <$> PyNum.py_float "2.5") = Some "2.5"
  /\ (PyNum.float_repr <$> PyNum.py_float "0.1") = Some "0.1"
  /\ (PyNum.float_repr <$> PyNum.py_float "3") = Some "3.0"
  /\ (PyNum.float_repr <$> PyNum.py_float "1e22") = Some "1e+22"
  /\ (PyNum.float_repr <$> PyNum.py_float "1e16") = Some "1e+16"
  /\ (PyNum.float_repr <$> PyNum.py_float "123456789012345678") = Some "1.2345678901234568e+17"
  /\ (PyNum.float_repr <$> PyNum.py_float "0.0001") = Some "0.0001"
  /\ (PyNum.float_repr <$> PyNum.py_float "0.00001") = Some "1e-05"
  /\ (PyNum.float_repr <$> PyNum.py_float "-1500000.50") = Some "-1500000.5"
  /\ (PyNum.float_repr <$> PyNum.py_float "5e-324") = Some "5e-324"
  /\ (PyNum.float_repr <$> PyNum.py_float "1.7976931348623157e308") = Some "1.7976931348623157e+308"
  /\ (PyNum.float_repr <$> PyNum.py_float "9007199254740993") = Some "9007199254740992.0"
  /\ (PyNum.float_repr <$> PyNum.py_float "0.3") = Some "0.3"
  /\ (PyNum.float_repr <$> PyNum.py_float "1e400") = Some "inf".
Proof. vm_compute. repeat split. Qed.
(** ** Facts on the float model: signs and comparison *)

Module PyNumFacts.
Import PyStr PyNum.

(** A float that is [+0.0], positive and finite, or [+inf]. *)
Definition is_nonneg (f : float) : bool :=
match f with
| S754_zero s | S754_infinity s | S754_finite s _ _ => negb s
| S754_nan => false
end.

Lemma shr_1_nonneg mrs : 0 <= shr_m mrs -> 0 <= shr_m (shr_1 mrs).
Proof.
  destruct mrs as [m r s]; simpl.
  destruct m as [|p|p]; simpl; try lia; destruct p; simpl; lia.
Qed.

Lemma iter_pos_shr_1_nonneg p : forall mrs,
  0 <= shr_m mrs -> 0 <= shr_m (SpecFloat.iter_pos shr_1 p mrs).
Proof.
  induction p as [p IH|p IH|]; intros mrs H; simpl.
  - apply IH, IH, shr_1_nonneg, H.
  - apply IH, IH, H.
  - apply shr_1_nonneg, H.
Qed.

Lemma shr_fexp_nonneg m e l :
  0 <= m -> 0 <= shr_m (fst (shr_fexp prec emax m e l)).
Proof.
  intros H. unfold shr_fexp, shr.
  assert (H0 : 0 <= shr_m (shr_record_of_loc m l))
    by (destruct l as [|[]]; exact H).
  destruct (fexp prec emax (Zdigits2 m + e) - e) as [|p|p]; simpl; auto.
  apply iter_pos_shr_1_nonneg, H0.
Qed.

Lemma round_nearest_even_nonneg m l : 0 <= m -> 0 <= round_nearest_even m l.
Proof.
  intros H. destruct l as [|[]]; simpl; try lia.
  destruct (Z.even m); lia.
Qed.

(** Rounding a magnitude keeps the sign it is given and never gives NaN. *)
Lemma binary_round_aux_sign s m e l :
  0 <= m ->
  match binary_round_aux prec emax s m e l with
  | S754_zero s' | S754_infinity s' | S754_finite s' _ _ => s' = s
  | S754_nan => False
  end.
Proof.
  intros H. unfold binary_round_aux.
  pose proof (shr_fexp_nonneg m e l H) as H1.
  destruct (shr_fexp prec emax m e l) as [mrs1 e1]; simpl in H1.
  pose proof (round_nearest_even_nonneg _ (loc_of_shr_record mrs1) H1) as H2.
  pose proof (shr_fexp_nonneg _ e1 loc_Exact H2) as H3.
  destruct (shr_fexp prec emax _ e1 loc_Exact) as [mrs2 e2]; simpl in H3.
  destruct (shr_m mrs2) as [|p|p]; try reflexivity; try lia.
  destruct (e2 <=? emax - prec); reflexivity.
Qed.

Lemma binary_round_aux_nonneg m e l :
  0 <= m -> is_nonneg (binary_round_aux prec emax false m e l) = true.
Proof.
  intros H. pose proof (binary_round_aux_sign false m e l H) as H1.
  destruct (binary_round_aux prec emax false m e l); simpl; subst; tauto.
Qed.

Lemma float_of_ratio_nonneg n d : is_nonneg (float_of_ratio n d) = true.
Proof.
  unfold float_of_ratio, SFdiv_core_binary.
  set (s := _ - _ - _).
  set (m' := match s with Z0 => _ | Zpos _ => _ | Zneg _ => _ end).
  assert (Hm : 0 <= m').
  { subst m'. destruct s; try lia. apply Z.shiftl_nonneg. lia. }
  pose proof (Z_div_mod m' (Zpos d) eq_refl) as Hdiv.
  destruct (Z.div_eucl m' (Zpos d)) as [q r].
  apply binary_round_aux_nonneg. nia.
Qed.

Lemma float_of_decimal_nonneg n e : is_nonneg (float_of_decimal n e) = true.
Proof.
  unfold float_of_decimal. destruct n as [|p]; [reflexivity|].
  destruct (0 <=? e).
  - unfold binary_round. destruct (shl_align _ _ _) as [mz ez].
    apply binary_round_aux_nonneg. lia.
  - apply float_of_ratio_nonneg.
Qed.

(** The product of two non-negative floats is non-negative when the second
is finite and not zero: there is no [0 * inf]. *)
Lemma fmul_nonneg x m e :
  is_nonneg x = true -> is_nonneg (fmul x (S754_finite false m e)) = true.
Proof.
  destruct x as [s|s| |s mx ex]; simpl; try discriminate;
    destruct s; try discriminate; intros _; try reflexivity.
  apply binary_round_aux_nonneg. lia.
Qed.

(** On non-negative floats, [not (f < k)] is [f >= k]: the comparison is
decided because neither side is NaN. *)
Lemma SFltb_false_SFleb (k f : float) :
  is_nonneg k = true -> is_nonneg f = true ->
  SFltb f k = false -> SFleb k f = true.
Proof.
  unfold SFltb, SFleb.
  destruct k as [sk|sk| |sk mk ek], f as [sf|sf| |sf mf ef]; simpl;
    try discriminate; destruct sk, sf; simpl; try discriminate; auto.
  intros _ _.
  rewrite (Z.compare_antisym ek ef).
  destruct (ek ?= ef) eqn:E; simpl; auto; try discriminate.
  change (Pos.compare_cont Eq mf mk) with (mf ?= mk)%positive.
  change (Pos.compare_cont Eq mk mf) with (mk ?= mf)%positive.
  rewrite (Pos.compare_antisym mf mk).
  destruct (mf ?= mk)%positive; simpl; auto; discriminate.
Qed.

End PyNumFacts.

(** ** Facts on strings *)

Module PyStrFacts.
Import PyStr.

Ltac by_cases_on_char c :=
  destruct c as [[] [] [] [] [] [] [] []]; vm_compute; intros; congruence.

Lemma forallb_str_app p a b :
  forallb_str p (a ++ b) = forallb_str p a && forallb_str p b.
Proof.
  induction a as [|c a IH]; simpl; [reflexivity|].
  rewrite IH. apply andb_assoc.
Qed.

Lemma forallb_str_impl (p q : ascii -> bool) s :
  (forall c, p c = true -> q c = true) ->
  forallb_str p s = true -> forallb_str q s = true.
Proof.
  intros Hpq. induction s as [|c s IH]; simpl; [reflexivity|].
  intros [Hc Hs]%andb_prop. rewrite (Hpq c Hc), (IH Hs). reflexivity.
Qed.

Lemma span_spec p s a b :
  span p s = (a, b) -> s = a ++ b /\ forallb_str p a = true.
Proof.
  revert a b. induction s as [|c s IH]; simpl; intros a b H.
  - inversion H. split; reflexivity.
  - destruct (p c) eqn:Hc.
    + destruct (span p s) as [a' b'] eqn:E. inversion H; subst.
      destruct (IH a' b eq_refl) as [-> Ha]. simpl. rewrite Hc, Ha.
      split; reflexivity.
    + inversion H. split; reflexivity.
Qed.

Lemma lstrip_id p s :
  (forall c, p c = true -> is_space c = false) ->
  forallb_str p s = true -> lstrip s = s.
Proof.
  intros Hp. destruct s as [|c s]; simpl; [reflexivity|].
  intros [Hc _]%andb_prop. rewrite (Hp c Hc). reflexivity.
Qed.

Lemma rstrip_id p s :
  (forall c, p c = true -> is_space c = false) ->
  forallb_str p s = true -> rstrip s = s.
Proof.
  intros Hp. induction s as [|c s IH]; simpl; [reflexivity|].
  intros [Hc Hs]%andb_prop. rewrite (Hp c Hc), (IH Hs). reflexivity.
Qed.

Lemma strip_id p s :
  (forall c, p c = true -> is_space c = false) ->
  forallb_str p s = true -> strip s = s.
Proof.
  intros Hp H. unfold strip.
  rewrite (lstrip_id p s Hp H). apply (rstrip_id p s Hp H).
Qed.

Lemma filter_str_forallb p s : forallb_str p (filter_str p s) = true.
Proof.
  induction s as [|c s IH]; simpl; [reflexivity|].
  destruct (p c) eqn:Hc; simpl; [rewrite Hc|]; exact IH.
Qed.


Lemma append_empty_r (s : string) : s ++ "" = s.
Proof. induction s as [|c s IH]; simpl; [reflexivity|]. f_equal. exact IH. Qed.

Lemma join_cons_run w ws :
  join "" (cons_run w ws) = w ++ join "" ws.
Proof.
  unfold cons_run. destruct w as [|c w]; simpl; [reflexivity|].
  destruct ws as [|x ws]; simpl; [|reflexivity].
  f_equal. symmetry. apply append_empty_r.
Qed.

(** Joining the runs of [p]-characters gives the [p]-characters of [s]. *)
Lemma join_runs_from p s :
  fst (runs_from p s) ++ join "" (snd (runs_from p s)) = filter_str p s.
Proof.
  induction s as [|c s IH]; simpl; [reflexivity|].
  destruct (runs_from p s) as [w ws]. simpl in IH.
  destruct (p c); simpl.
  - f_equal. exact IH.
  - rewrite join_cons_run. exact IH.
Qed.

Lemma join_runs p s : join "" (runs p s) = filter_str p s.
Proof.
  unfold runs. pose proof (join_runs_from p s) as H.
  destruct (runs_from p s) as [w ws]. rewrite join_cons_run. exact H.
Qed.

Lemma runs_from_nonempty p s :
  Forall (fun w => w <> "") (snd (runs_from p s)).
Proof.
  induction s as [|c s IH]; simpl; [constructor|].
  destruct (runs_from p s) as [w ws]. simpl in IH.
  destruct (p c); simpl; [exact IH|].
  unfold cons_run. destruct w; simpl; [exact IH|].
  constructor; [discriminate|exact IH].
Qed.

(** There is no run exactly when no character satisfies [p]. *)
Lemma runs_nil p s : runs p s = [] <-> filter_str p s = "".
Proof.
  rewrite <- join_runs. unfold runs.
  pose proof (runs_from_nonempty p s) as H.
  destruct (runs_from p s) as [w ws]. simpl in H.
  unfold cons_run. destruct w as [|c w]; simpl.
  - destruct ws as [|x ws]; [tauto|].
    split; [discriminate|].
    inversion H as [|? ? Hx _]; subst.
    destruct x; [congruence|]. destruct ws; discriminate.
  - split; [discriminate|]. destruct ws; discriminate.
Qed.

Lemma count_str_app p a b :
  count_str p (a ++ b) = (count_str p a + count_str p b)%nat.
Proof.
  induction a as [|c a IH]; simpl; [reflexivity|]. rewrite IH. lia.
Qed.

Lemma count_str_zero p q s :
  (forall c, q c = true -> p c = false) ->
  forallb_str q s = true -> count_str p s = 0%nat.
Proof.
  intros Hqp. induction s as [|c s IH]; simpl; [reflexivity|].
  intros [Hc Hs]%andb_prop. rewrite (Hqp c Hc), (IH Hs). reflexivity.
Qed.

End PyStrFacts.

(** ** [float()] on the strings that [convert_price_to_number] builds *)

Module PriceFacts.
Import PyStr PyNum PyExn Price PyStrFacts PyNumFacts.

Lemma digit_is_num_char c : is_digit c = true -> is_num_char c = true.
Proof. unfold is_num_char. intros ->. reflexivity. Qed.

Lemma num_char_cases c :
  is_num_char c = true -> is_digit c = negb (is_dot c).
Proof. by_cases_on_char c. Qed.

Lemma num_char_not_space c : is_num_char c = true -> is_space c = false.
Proof. by_cases_on_char c. Qed.

Lemma num_char_not_c_space c : is_num_char c = true -> is_c_space c = false.
Proof. by_cases_on_char c. Qed.

(** [int()] and [float()] strip nothing from a text without C white space. *)
Lemma c_strip_id p s :
  (forall c, p c = true -> is_c_space c = false) ->
  forallb_str p s = true -> c_strip s = s.
Proof.
  intros Hp H. unfold c_strip.
  assert (Hl : c_lstrip s = s).
  { destruct s as [|c s]; simpl; [reflexivity|].
    simpl in H. apply andb_prop in H as [Hc _]. rewrite (Hp c Hc).
    reflexivity. }
  rewrite Hl. clear Hl. induction s as [|c s IH]; simpl; [reflexivity|].
  simpl in H. apply andb_prop in H as [Hc Hs].
  rewrite (Hp c Hc), (IH Hs). reflexivity.
Qed.

Lemma num_char_not_e c : is_num_char c = true -> is_e c = false.
Proof. by_cases_on_char c. Qed.

Lemma num_char_not_underscore c : is_num_char c = true -> is_underscore c = false.
Proof. by_cases_on_char c. Qed.

Lemma num_char_not_i c :
  is_num_char c = true -> Ascii.eqb (lower_char c) "i" = false.
Proof. by_cases_on_char c. Qed.

Lemma num_char_not_n c :
  is_num_char c = true -> Ascii.eqb (lower_char c) "n" = false.
Proof. by_cases_on_char c. Qed.

Lemma signed_num_char c r :
  is_num_char c = true -> signed (String c r) = (false, String c r).
Proof. by_cases_on_char c. Qed.

(** The numerals made of digits and points that [float()] accepts: at most
one point and at least one digit. *)
Definition valid_decimal (t : string) : bool :=
  (count_str is_dot t <=? 1)%nat && (1 <=? count_str is_digit t)%nat.

Lemma count_num_chars x :
  forallb_str is_num_char x = true ->
  (count_str is_dot x + count_str is_digit x)%nat = String.length x.
Proof.
  induction x as [|c x IH]; simpl; [reflexivity|].
  intros [Hc Hx]%andb_prop. specialize (IH Hx).
  rewrite (num_char_cases c Hc). destruct (is_dot c); simpl; lia.
Qed.

Lemma all_digits_count x :
  forallb_str is_num_char x = true ->
  forallb_str is_digit x = (count_str is_dot x =? 0)%nat.
Proof.
  induction x as [|c x IH]; simpl; [reflexivity|].
  intros [Hc Hx]%andb_prop. rewrite (IH Hx), (num_char_cases c Hc).
  destruct (is_dot c); reflexivity.
Qed.

Lemma is_empty_length x : is_empty x = (String.length x =? 0)%nat.
Proof. destruct x; reflexivity. Qed.

Lemma digitpart_tail_num x :
  forallb_str is_num_char x = true ->
  digitpart_tail x = if forallb_str is_digit x then Some x else None.
Proof.
  induction x as [|c x IH]; simpl; [reflexivity|].
  intros [Hc Hx]%andb_prop.
  destruct (is_digit c) eqn:Hd; simpl.
  - rewrite (IH Hx). destruct (forallb_str is_digit x); reflexivity.
  - rewrite (num_char_not_underscore c Hc). reflexivity.
Qed.

Lemma digitpart_num x :
  forallb_str is_num_char x = true ->
  digitpart x =
    if negb (is_empty x) && forallb_str is_digit x then Some x else None.
Proof.
  destruct x as [|c x]; simpl; [reflexivity|].
  intros [Hc Hx]%andb_prop.
  destruct (is_digit c) eqn:Hd; simpl; [|reflexivity].
  rewrite (digitpart_tail_num x Hx).
  destruct (forallb_str is_digit x); reflexivity.
Qed.

Lemma split_at_spec p s a b :
  split_at p s = (a, b) ->
  forallb_str (fun c => negb (p c)) a = true
  /\ match b with
     | None => s = a
     | Some r => exists c, p c = true /\ s = a ++ String c r
     end.
Proof.
  revert a b. induction s as [|c s IH]; simpl; intros a b H.
  - inversion H. split; reflexivity.
  - destruct (p c) eqn:Hc.
    + inversion H; subst. split; [reflexivity|]. exists c. split; auto.
    + destruct (split_at p s) as [a' b'] eqn:E. inversion H; subst.
      destruct (IH a' b eq_refl) as [Ha Hb]. simpl. rewrite Hc, Ha.
      split; [reflexivity|]. destruct b as [r|].
      * destruct Hb as (d & Hd & ->). exists d. split; auto.
      * subst. reflexivity.
Qed.

Lemma split_at_none p s :
  forallb_str (fun c => negb (p c)) s = true -> split_at p s = (s, None).
Proof.
  induction s as [|c s IH]; simpl; [reflexivity|].
  intros [Hc Hs]%andb_prop. apply negb_true_iff in Hc.
  rewrite Hc, (IH Hs). reflexivity.
Qed.

Lemma valid_decimal_false t :
  valid_decimal t = false <->
  (2 <= count_str is_dot t \/ count_str is_digit t = 0)%nat.
Proof.
  unfold valid_decimal. rewrite andb_false_iff, !Nat.leb_gt. lia.
Qed.

Lemma no_dot_count a :
  forallb_str (fun c => negb (is_dot c)) a = true -> count_str is_dot a = 0%nat.
Proof.
  apply (count_str_zero _ (fun c => negb (is_dot c))).
  intros d Hd. apply negb_true_iff in Hd. exact Hd.
Qed.

(** On a string of digits and points, [mantissa] succeeds exactly on the
valid numerals. *)
Lemma mantissa_num t :
  forallb_str is_num_char t = true ->
  (mantissa t = None <-> valid_decimal t = false).
Proof.
  intros Ht. rewrite valid_decimal_false. unfold mantissa.
  destruct (split_at is_dot t) as [a b] eqn:E.
  destruct (split_at_spec _ _ _ _ E) as [Ha Hb].
  pose proof (no_dot_count a Ha) as Eda.
  destruct b as [r|].
  - destruct Hb as (c & Hc & ->).
    rewrite !forallb_str_app in Ht. simpl in Ht.
    apply andb_prop in Ht as [Hna Ht]. apply andb_prop in Ht as [_ Hnr].
    rewrite !count_str_app. simpl count_str. rewrite Hc.
    assert (Hcd : is_digit c = false) by (revert Hc; clear; by_cases_on_char c).
    rewrite Hcd.
    pose proof (count_num_chars a Hna) as Ea.
    pose proof (count_num_chars r Hnr) as Er.
    rewrite (digitpart_num a Hna), (digitpart_num r Hnr).
    rewrite (all_digits_count a Hna), (all_digits_count r Hnr).
    rewrite !is_empty_length, !Eda in *. cbn [Nat.eqb].
    destruct (String.length a =? 0)%nat eqn:La;
      destruct (String.length r =? 0)%nat eqn:Lr;
      destruct (count_str is_dot r =? 0)%nat eqn:Dr;
      cbn [negb andb mbind option_bind];
      rewrite ?Nat.eqb_eq, ?Nat.eqb_neq in *;
      (split; [intros H; try discriminate H; lia | intros H; try reflexivity; exfalso; lia]).
  - subst a.
    pose proof (count_num_chars t Ht) as Et.
    rewrite (digitpart_num t Ht), (all_digits_count t Ht), is_empty_length.
    destruct (String.length t =? 0)%nat eqn:Lt;
      destruct (count_str is_dot t =? 0)%nat eqn:Dt;
      cbn [negb andb mbind option_bind];
      rewrite ?Nat.eqb_eq, ?Nat.eqb_neq in *;
      (split; [intros H; try discriminate H; lia | intros H; try reflexivity; exfalso; lia]).
Qed.

(** [float()] on a string of digits and points. *)
Lemma float_abs_num t :
  forallb_str is_num_char t = true ->
  float_abs t =
    '(d, k) ← mantissa t;
    Some (float_of_decimal (Z.to_N (digits_value 0 d)) (0 - k)).
Proof.
  intros Ht. unfold float_abs.
  assert (He : split_at is_e t = (t, None)).
  { apply split_at_none. revert Ht. apply forallb_str_impl.
    intros c Hc. rewrite (num_char_not_e c Hc). reflexivity. }
  rewrite He.
  destruct t as [|c t]; [reflexivity|].
  simpl in Ht. apply andb_prop in Ht as [Hc _].
  simpl lower. simpl String.eqb.
  rewrite (num_char_not_i c Hc), (num_char_not_n c Hc). simpl.
  destruct (mantissa (String c t)) as [[d k]|]; reflexivity.
Qed.

Lemma py_float_num t :
  forallb_str is_num_char t = true ->
  py_float t =
    '(d, k) ← mantissa t;
    Some (float_of_decimal (Z.to_N (digits_value 0 d)) (0 - k)).
Proof.
  intros Ht. unfold py_float.
  rewrite (c_strip_id is_num_char t num_char_not_c_space Ht).
  destruct t as [|c t]; [reflexivity|].
  rewrite signed_num_char by (simpl in Ht; apply andb_prop in Ht; tauto).
  rewrite (float_abs_num _ Ht).
  destruct (mantissa (String c t)) as [[d k]|]; reflexivity.
Qed.

(** [float()] raises [ValueError] on such a string exactly when it has two
points or more, or no digit. *)
Lemma py_float_num_None t :
  forallb_str is_num_char t = true ->
  (py_float t = None <-> valid_decimal t = false).
Proof.
  intros Ht. rewrite (py_float_num t Ht), <- (mantissa_num t Ht).
  destruct (mantissa t) as [[d k]|]; simpl; split; congruence.
Qed.

(** When it returns, the float is not negative and not NaN. *)
Lemma py_float_num_nonneg t f :
  forallb_str is_num_char t = true ->
  py_float t = Some f -> is_nonneg f = true.
Proof.
  intros Ht. rewrite (py_float_num t Ht).
  destruct (mantissa t) as [[d k]|]; simpl; [|discriminate].
  intros [= <-]. apply float_of_decimal_nonneg.
Qed.

End PriceFacts.

(** ** [convert_price_to_number] *)

Module PriceSpec.
Import PyStr PyNum PyExn Price PyStrFacts PyNumFacts PriceFacts.

Lemma digit_not_dot c : is_digit c = true -> is_dot c = false.
Proof. by_cases_on_char c. Qed.

Lemma digits_count_dots x :
  forallb_str is_digit x = true -> count_str is_dot x = 0%nat.
Proof. apply count_str_zero, digit_not_dot. Qed.

Lemma digits_count_digits x :
  forallb_str is_digit x = true -> is_empty x = false ->
  (1 <= count_str is_digit x)%nat.
Proof.
  destruct x as [|c x]; simpl; [discriminate|].
  intros [-> _]%andb_prop _. lia.
Qed.

(** Group 1 of the suffix pattern is a valid numeral. *)
Lemma match_million_at_valid s g :
  match_million_at s = Some g ->
  forallb_str is_num_char g = true /\ valid_decimal g = true.
Proof.
  unfold match_million_at.
  destruct (span is_space (skip_one_of currency s)) as [w1 s2].
  destruct (span is_digit s2) as [ip s3] eqn:E1.
  destruct (span_spec _ _ _ _ E1) as [_ Hip].
  destruct (is_empty ip) eqn:Hne; [discriminate|].
  set (pt := match s3 with String "." r => (".", r) | _ => ("", s3) end).
  assert (Hpt : fst pt = "." \/ fst pt = "").
  { subst pt. destruct s3 as [|c r]; [right; reflexivity|].
    destruct c as [[] [] [] [] [] [] [] []]; simpl; auto. }
  destruct pt as [point s4]. simpl in Hpt.
  destruct (span is_digit s4) as [fp s5] eqn:E2.
  destruct (span_spec _ _ _ _ E2) as [_ Hfp].
  destruct (span is_space s5) as [w2 s6].
  destruct s6 as [|c s6]; [discriminate|].
  destruct (is_m c); [|discriminate].
  intros [= <-].
  pose proof (digits_count_dots _ Hip) as Dip.
  pose proof (digits_count_dots _ Hfp) as Dfp.
  pose proof (digits_count_digits _ Hip Hne) as Cip.
  unfold valid_decimal.
  rewrite !forallb_str_app, !count_str_app, Dip, Dfp.
  rewrite (forallb_str_impl _ _ _ digit_is_num_char Hip).
  rewrite (forallb_str_impl _ _ _ digit_is_num_char Hfp).
  destruct Hpt as [-> | ->]; (split; [reflexivity|]);
    apply andb_true_intro; split; apply Nat.leb_le; simpl; lia.
Qed.

Lemma search_million_valid s g :
  search_million s = Some g ->
  forallb_str is_num_char g = true /\ valid_decimal g = true.
Proof.
  induction s as [|c s IH].
  - intros H. vm_compute in H. discriminate H.
  - cbn [search_million]. destruct (match_million_at (String c s)) eqn:E.
    + intros [= <-]. exact (match_million_at_valid _ _ E).
    + exact IH.
Qed.

Lemma million_match_valid t g :
  million_match t = Some g ->
  forallb_str is_num_char g = true /\ valid_decimal g = true.
Proof.
  unfold million_match. destruct (_ || _); [|discriminate].
  apply search_million_valid.
Qed.


(** The float of the constant 1000000 is finite and positive. *)
Lemma million_finite :
  float_of_Z 1000000 = S754_finite false 8589934592000000 (-33).
Proof. vm_compute. reflexivity. Qed.

(** How [convert_price_to_number] ends, in terms of the text [t] after
[strip] and the removal of commas, and of its digits and points [u]. *)
Lemma convert_price_to_number_cases s :
  let t := replace_char "," "" (strip s) in
  let u := filter_str is_num_char t in
  match million_match t with
  | Some g =>
      exists f, py_float g = Some f /\ is_nonneg f = true /\
        convert_price_to_number s =
          Returns (NFloat (fmul f (float_of_Z 1000000)))
  | None =>
      if is_empty u then convert_price_to_number s = Returns (NInt 0)
      else
        match py_float u with
        | Some f => is_nonneg f = true /\ valid_decimal u = true /\
            convert_price_to_number s = Returns (NFloat f)
        | None => valid_decimal u = false /\
            convert_price_to_number s = Raises ValueError
        end
  end.
Proof.
  intros t u. unfold convert_price_to_number. fold t.
  destruct (million_match t) as [g|] eqn:Em.
  - destruct (million_match_valid _ _ Em) as [Hg Hv].
    destruct (py_float g) as [f|] eqn:Ef.
    + exists f. repeat split. exact (py_float_num_nonneg g f Hg Ef).
    + apply (py_float_num_None g Hg) in Ef. congruence.
  - unfold findall_numbers.
    pose proof (join_runs is_num_char t) as Hj. fold u in Hj.
    pose proof (runs_nil is_num_char t) as Hn. fold u in Hn.
    pose proof (filter_str_forallb is_num_char t) as Hu. fold u in Hu.
    destruct (runs is_num_char t) as [|x xs] eqn:Er.
    + rewrite (proj1 Hn eq_refl). reflexivity.
    + destruct (is_empty u) eqn:Eu.
      { destruct u; [|discriminate]. destruct Hn as [_ Hn].
        discriminate (Hn eq_refl). }
      rewrite Hj. destruct (py_float u) as [f|] eqn:Ef; simpl.
      * repeat split. { exact (py_float_num_nonneg u f Hu Ef). }
        destruct (valid_decimal u) eqn:Ev; [reflexivity|].
        apply (py_float_num_None u Hu) in Ev. congruence.
      * split; [|reflexivity]. apply (py_float_num_None u Hu). exact Ef.
Qed.


Lemma append_nonempty_r (a b : string) : b <> "" -> a ++ b <> "".
Proof. destruct a; simpl; [tauto|discriminate]. Qed.







(** What [convert_price_to_number] returns is the integer 0 or a float that
is not negative and not NaN. *)
Lemma convert_returns s v :
  convert_price_to_number s = Returns v ->
  match v with
  | NInt z => z = 0
  | NFloat f => is_nonneg f = true
  end.
Proof.
  pose proof (convert_price_to_number_cases s) as H. cbv zeta in H.
  destruct (million_match _) as [g|].
  - destruct H as (f & _ & Hf & ->). intros [= <-].
    change (is_nonneg (fmul f (float_of_Z 1000000)) = true).
    rewrite million_finite. apply fmul_nonneg, Hf.
  - destruct (is_empty _).
    + rewrite H. intros [= <-]. reflexivity.
    + destruct (py_float _) as [f|].
      * destruct H as (Hf & _ & ->). intros [= <-]. exact Hf.
      * destruct H as (_ & ->). discriminate.
Qed.

(** For such a value, [not (v < k)] is [v >= k]. *)
Lemma lt_int_false_ge v k :
  match v with
  | NInt z => z = 0
  | NFloat f => is_nonneg f = true
  end ->
  is_nonneg (float_of_Z k) = true ->
  lt_int v k = false -> ge_int v k = true.
Proof.
  destruct v as [z|f]; simpl; intros Hv Hk H.
  - apply Z.leb_le. apply Z.ltb_ge in H. exact H.
  - apply SFltb_false_SFleb; assumption.
Qed.

End PriceSpec.

(** ** Running the traversal: what each step does to the state *)

Module WorldFacts.
Import PyStr PyNum PyExn Price Soup Json Listing World Scraper Traversal.

Lemma requests_app a b : requests (a ++ b) = (requests a ++ requests b)%list.
Proof. unfold requests. apply flat_map_app. Qed.

Lemma writes_app a b : writes (a ++ b) = (writes a + writes b)%nat.
Proof. unfold writes. rewrite List.filter_app, length_app. reflexivity. Qed.

(** The state after the events [evs] with the files [fs]. *)
Definition after (st : state) (evs : list event) (fs : gmap string file)
  : state :=
{| trace := (trace st ++ evs)%list; files := fs |}.

Lemma emit_after st ev : emit ev st = after st [ev] (files st).
Proof. reflexivity. Qed.

Lemma after_after st a fa b fb :
  after (after st a fa) b fb = after st (a ++ b) fb.
Proof. unfold after. simpl. rewrite <- app_assoc. reflexivity. Qed.

(** [scrape_page] makes a single attempt: one request, no sleep, and the
records of the response when its status is 200. *)
Lemma scrape_page_eq url e st :
  scrape_page url e st =
    (records_of (net e (length (requests (trace st))) url),
     after st [EvGet url] (files st)).
Proof.
  unfold scrape_page, max_retries, range. simpl.
  unfold World.bind, http_get, records_of. rewrite emit_after.
  destruct (net e _ url) as [status soup|]; [|reflexivity].
  destruct (status =? 403) eqn:E403.
  - apply Z.eqb_eq in E403. subst status. reflexivity.
  - destruct (status =? 200); reflexivity.
Qed.

(** The path of the backup written at clock reading [t]. *)
Definition backup_path (output_file : string) (t : Z) : string :=
output_file ++ "_backup_" ++ str_of_Z t ++ ".json".

(** The files after an attempt to write [content] at [path]. *)
Definition files_after_write (w : write_result) (path : string)
  (content : json) (fs : gmap string file) : gmap string file :=
match w with
| Written => <[path := FJson content]> fs
| WriteFailed (Some left_over) => <[path := left_over]> fs
| WriteFailed None => fs
end.

Definition succeeded (w : write_result) : bool :=
match w with Written => true | WriteFailed _ => false end.

Lemma write_json_eq path content e st :
  write_json path content e st =
    (succeeded (disk e (writes (trace st))),
     after st [EvWrite path content (succeeded (disk e (writes (trace st))))]
           (files_after_write (disk e (writes (trace st))) path content
                              (files st))).
Proof.
  unfold write_json. destruct (disk e _) as [|[raw|]]; reflexivity.
Qed.

(** The events and the files of [save]: one write, and a second one to the
backup path when the first failed. *)
Lemma save_eq output_file properties e st :
  let w1 := disk e (writes (trace st)) in
  let w2 := disk e (S (writes (trace st))) in
  let backup := backup_path output_file (clock e (S (length (trace st)))) in
  let doc := JArr properties in
  save output_file properties e st =
    (tt,
     if succeeded w1 then
       after st [EvWrite output_file doc true]
             (files_after_write w1 output_file doc (files st))
     else
       after st [EvWrite output_file doc false;
                 EvWrite backup doc (succeeded w2)]
             (files_after_write w2 backup doc
                (files_after_write w1 output_file doc (files st)))).
Proof.
  intros w1 w2 backup doc. unfold save, World.bind.
  rewrite write_json_eq. fold w1 doc.
  destruct (succeeded w1) eqn:E1; [reflexivity|].
  assert (Hw : writes (trace st ++ [EvWrite output_file doc false])
               = S (writes (trace st))).
  { rewrite writes_app. unfold writes at 2. simpl. lia. }
  assert (Hl : length (trace st ++ [EvWrite output_file doc false])
               = S (length (trace st))).
  { rewrite length_app. simpl. lia. }
  unfold now, World.ret. rewrite write_json_eq. cbn [trace files after].
  rewrite Hw, Hl. fold w2. unfold after. cbn [trace files].
  rewrite <- app_assoc. reflexivity.
Qed.

(** The body of the loop, in one equation: [r1] is the response to the
orchestrator's request, [r2] the response to the request of
[scrape_page]. *)
Lemma scrape_one_page_eq base_url output_file total_pages page properties e st :
  let url := page_url base_url page in
  let k := length (requests (trace st)) in
  let r1 := net e k url in
  let r2 := net e (S k) url in
  let wait := EvSleepUniform (1 # 2) (3 # 2) in
  let st1 := after st [wait; EvGet url] (files st) in
  let st2 := after st [wait; EvGet url; EvGet url] (files st) in
  scrape_one_page base_url output_file total_pages page properties e st =
    match r1 with
    | ConnectionError => (Stop PageError, properties, st1)
    | Response status soup =>
        if status =? 404 then (Stop NotFound, properties, st1)
        else if negb (status =? 200) then (Stop BadStatus, properties, st1)
        else
          match find (is_tag "div" "error-container") soup with
          | Some _ => (Stop ErrorMarker, properties, st1)
          | None =>
              match records_of r2 with
              | [] => (Stop NoListings, properties, st2)
              | _ :: _ =>
                  (next_page_check soup page total_pages,
                   (properties ++ records_of r2)%list,
                   snd (save output_file (properties ++ records_of r2) e st2))
              end
          end
    end.
Proof.
  intros url k r1 r2 wait st1 st2.
  unfold scrape_one_page, World.bind, sleep_uniform, http_get. fold url.
  rewrite !emit_after, after_after. fold wait.
  change (trace (after st [wait] (files st))) with (trace st ++ [wait])%list.
  change (files (after st [wait] (files st))) with (files st).
  rewrite requests_app. change (requests [wait]) with (@nil string).
  rewrite app_nil_r. fold k r1. simpl app. fold st1.
  destruct r1 as [status soup|]; [|reflexivity].
  destruct (status =? 404); [reflexivity|].
  destruct (status =? 200); cbn [negb]; [|reflexivity].
  destruct (find _ soup); [reflexivity|].
  cbv beta. rewrite scrape_page_eq. subst st1. rewrite after_after.
  change (trace (after st [wait; EvGet url] (files st)))
    with (trace st ++ [wait; EvGet url])%list.
  change (files (after st [wait; EvGet url] (files st))) with (files st).
  rewrite requests_app. change (requests [wait; EvGet url]) with [url].
  rewrite length_app. change (length [url]) with 1%nat.
  replace (length (requests (trace st)) + 1)%nat with (S k) by (subst k; lia).
  fold r2. simpl app. fold st2.
  destruct (records_of r2) as [|x xs]; [reflexivity|].
  unfold World.ret. destruct (save _ _ e st2) as [[] st3]. reflexivity.
Qed.

End WorldFacts.

(** ** Facts on the traversal *)

Module TraversalFacts.
Import PyStr PyNum PyExn Price Soup Json Listing World Scraper Traversal.
Import WorldFacts.

Lemma requests_after st evs fs :
  requests (trace (after st evs fs)) = (requests (trace st) ++ requests evs)%list.
Proof. unfold after. simpl. apply requests_app. Qed.

Lemma writes_after st evs fs :
  writes (trace (after st evs fs)) = (writes (trace st) + writes evs)%nat.
Proof. unfold after. simpl. apply writes_app. Qed.

(** The events of a [save]. *)
Definition save_events (output_file : string) (properties : list json)
  (e : env) (st : state) : list event :=
let w1 := disk e (writes (trace st)) in
let w2 := disk e (S (writes (trace st))) in
let backup := backup_path output_file (clock e (S (length (trace st)))) in
EvWrite output_file (JArr properties) (succeeded w1)
:: (if succeeded w1 then []
    else [EvWrite backup (JArr properties) (succeeded w2)]).

Lemma save_trace output_file properties e st :
  trace (snd (save output_file properties e st))
  = (trace st ++ save_events output_file properties e st)%list.
Proof.
  pose proof (save_eq output_file properties e st) as H. cbv zeta in H.
  rewrite H. unfold save_events. simpl snd.
  destruct (succeeded (disk e (writes (trace st)))); reflexivity.
Qed.

(** A [save] makes no request. *)
Lemma save_requests output_file properties e st :
  requests (trace (snd (save output_file properties e st)))
  = requests (trace st).
Proof.
  rewrite save_trace, requests_app. unfold save_events.
  destruct (succeeded _); simpl; apply app_nil_r.
Qed.

(** The verdict and the collection of one page depend on the two responses
only. *)
Lemma scrape_one_page_value base_url output_file total_pages page properties e st :
  let url := page_url base_url page in
  let k := length (requests (trace st)) in
  let r1 := net e k url in
  let r2 := net e (S k) url in
  fst (scrape_one_page base_url output_file total_pages page properties e st) =
    match r1 with
    | ConnectionError => (Stop PageError, properties)
    | Response status soup =>
        if status =? 404 then (Stop NotFound, properties)
        else if negb (status =? 200) then (Stop BadStatus, properties)
        else if found (find (is_tag "div" "error-container") soup)
        then (Stop ErrorMarker, properties)
        else
          match records_of r2 with
          | [] => (Stop NoListings, properties)
          | _ :: _ =>
              (next_page_check soup page total_pages,
               (properties ++ records_of r2)%list)
          end
    end.
Proof.
  intros url k r1 r2.
  pose proof (scrape_one_page_eq base_url output_file total_pages page
                properties e st) as H.
  cbv zeta in H. fold url k r1 r2 in H. rewrite H.
  destruct r1 as [status soup|]; [|reflexivity].
  destruct (status =? 404); [reflexivity|].
  destruct (negb (status =? 200)); [reflexivity|].
  destruct (find _ soup); [reflexivity|]. simpl found. cbv iota.
  destruct (records_of r2); reflexivity.
Qed.

(** The requests of one page: one, or two when the first response passed
the checks of the orchestrator. *)
Definition passes_checks (r : response) : bool :=
match r with
| Response status soup =>
    (status =? 200) && negb (found (find (is_tag "div" "error-container") soup))
| ConnectionError => false
end.

Lemma scrape_one_page_requests base_url output_file total_pages page properties e st :
  let url := page_url base_url page in
  let r1 := net e (length (requests (trace st))) url in
  requests (trace (snd (scrape_one_page base_url output_file total_pages page
                                        properties e st)))
  = (requests (trace st) ++ (if passes_checks r1 then [url; url] else [url]))%list.
Proof.
  intros url r1.
  pose proof (scrape_one_page_eq base_url output_file total_pages page
                properties e st) as H.
  cbv zeta in H. fold url r1 in H. rewrite H. unfold passes_checks.
  destruct r1 as [status soup|]; [|apply requests_after].
  destruct (status =? 404) eqn:E404.
  { apply Z.eqb_eq in E404. subst status. apply requests_after. }
  destruct (status =? 200); cbn [negb andb]; [|apply requests_after].
  destruct (find _ soup); [apply requests_after|]. simpl found. cbn [negb].
  destruct (records_of _); [apply requests_after|].
  cbn [snd]. rewrite save_requests. apply requests_after.
Qed.

End TraversalFacts.

(** * The claims on the price normalisation *)

Module PriceClaims.
Import PyStr PyNum PyExn Price PyStrFacts PyNumFacts PriceFacts PriceSpec.

(** Claim C2.  [convert_price_to_number] maps "$2.5M" to 2,500,000 (the float
2500000.0), "1,750,000" to 1,750,000 (the float 1750000.0) and
"Contact Agent" to the integer 0. *)
Theorem convert_price_examples :
  convert_price_to_number "$2.5M" = Returns (NFloat (float_of_Z 2500000))
  /\ convert_price_to_number "1,750,000" = Returns (NFloat (float_of_Z 1750000))
  /\ convert_price_to_number "Contact Agent" = Returns (NInt 0).
Proof. repeat split; vm_compute; reflexivity. Qed.




End PriceClaims.

(** * The claims on the extraction of a listing *)

Module ListingClaims.
Import PyStr PyNum PyExn Price Soup Json Listing World Scraper Samples Claimed.
Import PyStrFacts PyNumFacts PriceFacts PriceSpec.

Lemma threshold_nonneg : is_nonneg (float_of_Z price_threshold) = true.
Proof. vm_compute. reflexivity. Qed.

(** What [process_listing] returns, in one equation. *)
Lemma process_listing_eq listing :
  process_listing listing =
    match convert_price_to_number (fst (price_and_status listing)) with
    | Returns price_value =>
        if lt_int price_value price_threshold then None
        else Some (property_details
                     (text_or_empty (find (is_tag "p" "property-name") listing))
                     (fst (price_and_status listing)) price_value
                     (snd (price_and_status listing)) (read_details listing)
                     (fst (agent_and_agency listing))
                     (snd (agent_and_agency listing)))
    | Raises _ => None
    end.
Proof.
  unfold process_listing.
  destruct (price_and_status listing) as [price_text status].
  destruct (agent_and_agency listing) as [agent agency]. reflexivity.
Qed.

Lemma keep_some_In {A} (l : list (option A)) (a : A) :
  In a (keep_some l) <-> In (Some a) l.
Proof.
  induction l as [|[b|] l IH]; simpl; [tauto| |].
  - rewrite IH. split; intros [H|H]; auto; left; congruence.
  - rewrite IH. split; [auto|]. intros [H|H]; [discriminate|exact H].
Qed.

(** A record of a page comes from one of its listing containers. *)
Lemma extract_records_In soup r :
  In r (extract_records soup) ->
  exists listing, In listing (listing_elements soup)
                  /\ process_listing listing = Some r.
Proof.
  unfold extract_records. rewrite keep_some_In, in_map_iff.
  intros (listing & H & Hin). exists listing. auto.
Qed.

(** A record carries the normalised price of its price text, and that
price is not below the threshold. *)
Lemma record_price listing r :
  process_listing listing = Some r ->
  exists v, convert_price_to_number (fst (price_and_status listing)) = Returns v
            /\ get "Price Value" r = Some (JNum v)
            /\ ge_int v price_threshold = true.
Proof.
  rewrite process_listing_eq.
  destruct (convert_price_to_number _) as [v|e] eqn:E; [|discriminate].
  destruct (lt_int v price_threshold) eqn:Hlt; [discriminate|].
  intros [= <-]. exists v. split; [reflexivity|]. split; [reflexivity|].
  apply lt_int_false_ge; auto using threshold_nonneg.
  exact (convert_returns _ _ E).
Qed.

(** The records of a page are all at or above the threshold. *)
Lemma extract_records_at_least_threshold soup r :
  In r (extract_records soup) ->
  exists v, get "Price Value" r = Some (JNum v)
            /\ ge_int v price_threshold = true.
Proof.
  intros (listing & _ & H)%extract_records_In.
  destruct (record_price listing r H) as (v & _ & Hg & Hv).
  exists v. auto.
Qed.

(** Claim C1.  For every listing node: if the price text normalises to a
value below the threshold 1,500,000 then [process_listing] returns [None];
and every record it returns, hence every record extracted from a page,
carries under "Price Value" the normalised price of its price text, which is
at least 1,500,000. *)
Theorem sub_threshold_listing_gives_no_record (listing : node) :
  let price_text := fst (price_and_status listing) in
  (forall v, convert_price_to_number price_text = Returns v ->
             lt_int v price_threshold = true ->
             process_listing listing = None)
  /\ (forall r, process_listing listing = Some r ->
        exists v, convert_price_to_number price_text = Returns v
                  /\ get "Price Value" r = Some (JNum v)
                  /\ ge_int v price_threshold = true).
Proof.
  intros price_text. rewrite process_listing_eq. fold price_text.
  destruct (convert_price_to_number price_text) as [v|e] eqn:E.
  - split.
    + intros v' [= <-] Hlt. rewrite Hlt. reflexivity.
    + intros r. destruct (lt_int v price_threshold) eqn:Hlt; [discriminate|].
      intros [= <-]. exists v. split; [reflexivity|]. split; [reflexivity|].
      apply lt_int_false_ge; auto using threshold_nonneg.
      exact (convert_returns _ _ E).
  - split; [discriminate|]. intros r H. discriminate H.
Qed.

(** Claim C1 on a listing priced "$950,000" (no record) and on one priced
"$2.5M" (a record, with price value 2500000.0). *)
Lemma sub_threshold_listing_gives_no_record_witness :
  process_listing (listing_of "$950,000") = None
  /\ exists v, get "Price Value"
                 (default JNull (process_listing (listing_of "$2.5M")))
               = Some (JNum v)
               /\ ge_int v price_threshold = true.
Proof.
  split.
  - apply (proj1 (sub_threshold_listing_gives_no_record (listing_of "$950,000"))
             (NFloat (float_of_Z 950000))); vm_compute; reflexivity.
  - destruct (proj2 (sub_threshold_listing_gives_no_record (listing_of "$2.5M"))
                _ eq_refl) as (v & _ & Hget & Hge).
    exists v. split; [exact Hget|exact Hge].
Defined.

(** Claim C4, as stated, fails: the record of a listing priced "$2.5M" has
eight fields, not nine; beds, baths and square footage are not fields but
parts of one string. *)
Lemma record_is_not_as_claimed :
  claimed_record <$> process_listing (listing_of "$2.5M") = Some false.
Proof. vm_compute. reflexivity. Qed.

(** Claim C4, amended.  Every record that [process_listing] produces is an
object with exactly eight fields, in this order: "Found high-value
property:" (the string "✓"), "Address:" (string), "Price:" (string),
"Price Value" (a float), "Status:" (a string that is not empty), "Beds:"
(one string that holds the beds, the baths and the square footage, each
printed as a number or as "None"), "Agent:" and "Agency:" (strings). *)
Theorem record_fields (listing : node) (r : json) :
  process_listing listing = Some r ->
  exists address price_text price status d agent agency,
    r = JObj [ ("Found high-value property:", JStr "✓");
               ("Address:", JStr address);
               ("Price:", JStr price_text);
               ("Price Value", JNum (NFloat price));
               ("Status:", JStr status);
               ("Beds:", JStr (fmt_int (beds d) ++ ", Baths: "
                               ++ fmt_float (baths d) ++ ", Sq Ft: "
                               ++ fmt_int (sqft d)));
               ("Agent:", JStr agent);
               ("Agency:", JStr agency) ]
    /\ status <> "".
Proof.
  rewrite process_listing_eq.
  destruct (convert_price_to_number _) as [v|e] eqn:E; [|discriminate].
  destruct (lt_int v price_threshold) eqn:Hlt; [discriminate|].
  intros [= <-]. pose proof (convert_returns _ _ E) as Hv.
  destruct v as [z|f]; [subst z; discriminate Hlt|].
  unfold property_details.
  do 7 eexists. split; [reflexivity|].
  destruct (snd (price_and_status listing)); simpl; discriminate.
Qed.

(** The amended claim on the listing priced "$2.5M". *)
Lemma record_fields_witness :
  exists address price_text price status d agent agency,
    process_listing (listing_of "$2.5M")
    = Some (JObj [ ("Found high-value property:", JStr "✓");
                   ("Address:", JStr address);
                   ("Price:", JStr price_text);
                   ("Price Value", JNum (NFloat price));
                   ("Status:", JStr status);
                   ("Beds:", JStr (fmt_int (beds d) ++ ", Baths: "
                                   ++ fmt_float (baths d) ++ ", Sq Ft: "
                                   ++ fmt_int (sqft d)));
                   ("Agent:", JStr agent);
                   ("Agency:", JStr agency) ])
    /\ status <> "".
Proof.
  destruct (process_listing (listing_of "$2.5M")) as [r|] eqn:E;
    [|vm_compute in E; discriminate E].
  destruct (record_fields _ r E) as (a & p & f & s & d & ag & agc & -> & Hs).
  exists a, p, f, s, d, ag, agc. split; [reflexivity|exact Hs].
Defined.

End ListingClaims.

(** * The claims on the fetch, the pagination and the persistence *)

Module TraversalClaims.
Import PyStr PyNum PyExn Price Soup Json Listing World Scraper Samples.
Import Claimed Traversal WorldFacts TraversalFacts.

(** Claim C3: the code at the failing input.  The server answers 403 and
would answer 200, with a qualifying listing, to a second request.
[scrape_page] makes one request, does not sleep, does not ask again and
returns no record; the same loop with [max_retries = 2] sleeps two seconds,
asks again and returns the record. *)
Theorem scrape_page_gives_up_on_first_403 :
  fst (scrape_page "u" forbidden_once empty_state) = []
  /\ trace (snd (scrape_page "u" forbidden_once empty_state)) = [EvGet "u"]
  /\ fst (scrape_page_attempts 2 retry_delay (range 2) "u"
                               forbidden_once empty_state)
     = extract_records plain_page
  /\ length (extract_records plain_page) = 1%nat
  /\ trace (snd (scrape_page_attempts 2 retry_delay (range 2) "u"
                                      forbidden_once empty_state))
     = [EvGet "u"; EvSleep 2; EvGet "u"].
Proof. split; [|split; [|split; [|split]]]; vm_compute; reflexivity. Qed.

(** For every URL and every server, [scrape_page] makes exactly one
request and never sleeps; anything but a response with status 200 gives
the empty list. *)
Lemma scrape_page_single_attempt url e st :
  let r := net e (length (requests (trace st))) url in
  trace (snd (scrape_page url e st)) = (trace st ++ [EvGet url])%list
  /\ fst (scrape_page url e st) = records_of r
  /\ ((forall soup, r <> Response 200 soup) -> fst (scrape_page url e st) = []).
Proof.
  intros r. rewrite scrape_page_eq. fold r. simpl.
  split; [reflexivity|]. split; [reflexivity|].
  intros H. unfold records_of. destruct r as [status soup|]; [|reflexivity].
  destruct (status =? 200) eqn:E; [|reflexivity].
  apply Z.eqb_eq in E. subst status. destruct (H soup eq_refl).
Qed.

(** The total read from a response, in one equation. *)
Lemma get_total_pages_eq base_url e st :
  fst (get_total_pages base_url e st) =
    match net e (length (requests (trace st))) base_url with
    | Response status soup =>
        if status =? 200 then
          match read_total_pages soup with
          | Returns total_pages => total_pages
          | Raises _ => 1
          end
        else 1
    | ConnectionError => 1
    end.
Proof. reflexivity. Qed.

(** Claim C6.  When the first page is answered with status 200, the total
page count is read from the text of the first [span] inside the
search-results marker: the text is split on "of" and the piece after the
first "of" is parsed as an integer, so "Page 1 of 12" gives 12.  When the
marker is missing, or its [span], or there is no piece after "of", or that
piece is not an integer numeral, the total is 1; [get_total_pages] returns
in every case, so the run goes on.

A piece that [py_int] accepts is made of ASCII white space, a sign, digits
and underscores, with at most [max_str_digits] digits, so the first part
holds for every text.  The last part is stated for a piece of ASCII
characters: Python also strips white space and reads digits outside that
range. *)
Theorem total_pages_from_marker (base_url : string) (e : env) (st : state)
  (soup : node) :
  let total := fst (get_total_pages base_url e st) in
  let marker := find (is_tag "p" "search-results") soup in
  net e (length (requests (trace st))) base_url = Response 200 soup ->
  (forall m span part n,
      marker = Some m -> find (is_named "span") m = Some span ->
      nth_error (split "of" (Soup.text span)) 1 = Some part ->
      py_int (strip part) = Some n -> total = n)
  /\ (forall m span,
      marker = Some m -> find (is_named "span") m = Some span ->
      Soup.text span = "Page 1 of 12" -> total = 12)
  /\ (marker = None -> total = 1)
  /\ (forall m, marker = Some m -> find (is_named "span") m = None -> total = 1)
  /\ (forall m span,
      marker = Some m -> find (is_named "span") m = Some span ->
      nth_error (split "of" (Soup.text span)) 1 = None -> total = 1)
  /\ (forall m span part,
      marker = Some m -> find (is_named "span") m = Some span ->
      nth_error (split "of" (Soup.text span)) 1 = Some part ->
      ascii_only part ->
      py_int (strip part) = None -> total = 1).
Proof.
  intros total marker Hr. subst total. rewrite get_total_pages_eq, Hr.
  change (200 =? 200) with true. cbv iota. unfold read_total_pages.
  fold marker.
  split; [|split; [|split; [|split; [|split]]]].
  - intros m span part n Hm Hs Hp Hn. rewrite Hm, Hs, Hp.
    cbn [or_raise PyExn.bind]. rewrite Hn. reflexivity.
  - intros m span Hm Hs Ht. rewrite Hm, Hs, Ht. vm_compute. reflexivity.
  - intros Hm. rewrite Hm. reflexivity.
  - intros m Hm Hs. rewrite Hm, Hs. reflexivity.
  - intros m span Hm Hs Hp. rewrite Hm, Hs, Hp. reflexivity.
  - intros m span part Hm Hs Hp _ Hn. rewrite Hm, Hs, Hp.
    cbn [or_raise PyExn.bind]. rewrite Hn. reflexivity.
Qed.

(** Claim C6 on a first page whose marker reads "Page 1 of 12", and on one
whose marker reads "Page 1 of many". *)
Lemma total_pages_from_marker_witness :
  fst (get_total_pages "b"
         (constant_env (Response 200 (document [search_results "Page 1 of 12"])))
         empty_state) = 12
  /\ fst (get_total_pages "b"
            (constant_env
               (Response 200 (document [search_results "Page 1 of many"])))
            empty_state) = 1.
Proof.
  split.
  - pose proof (total_pages_from_marker "b"
                  (constant_env
                     (Response 200 (document [search_results "Page 1 of 12"])))
                  empty_state _ eq_refl) as (_ & H & _).
    apply (H (search_results "Page 1 of 12")
             (Tag "span" [] [] [Text "Page 1 of 12"])); reflexivity.
  - pose proof (total_pages_from_marker "b"
                  (constant_env
                     (Response 200
                        (document [search_results "Page 1 of many"])))
                  empty_state _ eq_refl) as (_ & _ & _ & _ & _ & H).
    apply (H (search_results "Page 1 of many")
             (Tag "span" [] [] [Text "Page 1 of many"]) " many"); reflexivity.
Defined.

(** Claim C9.  When the write of [save] goes through, [load_existing] on
the same path returns, and gives back the records that were saved: the same
number, in the same order. *)
Theorem saved_records_reload (output_file : string) (records : list json)
  (e e' : env) (st : state) :
  disk e (writes (trace st)) = Written ->
  fst (load_existing output_file e'
         (snd (save output_file records e st))) = Returns records.
Proof.
  intros Hw. pose proof (save_eq output_file records e st) as H.
  cbv zeta in H. rewrite H, Hw. simpl.
  unfold load_existing, World.bind, read_file. simpl.
  rewrite lookup_insert_eq. reflexivity.
Qed.

(** Claim C9 on two records saved to "output.json" over an older file. *)
Lemma saved_records_reload_witness :
  let e := constant_env ConnectionError in
  let old := {| trace := []; files := {[ "output.json" := FOther "{" ]} |} in
  let records := [JObj [("Price:", JStr "$2.5M")]; JObj [("Price:", JStr "$3M")]] in
  fst (load_existing "output.json" e
         (snd (save "output.json" records e old))) = Returns records.
Proof.
  intros e old records.
  apply (saved_records_reload "output.json" records e e old). reflexivity.
Defined.

(** Claim C8.  On a page whose request is answered with status 200 and no
error marker and whose extraction gives at least one record: the records
are appended to the collection in memory; the whole collection is written
to the output file; when that write fails, the same collection is written
to the backup path named after the clock; and whatever the two writes do,
the page ends with the check for a next page and the loop carries the
enlarged collection to the next page. *)
Theorem page_with_records_is_saved (base_url output_file : string)
  (total_pages page : Z) (properties : list json) (e : env) (st : state)
  (soup : node) (remaining : nat) :
  let url := page_url base_url page in
  let k := length (requests (trace st)) in
  let page_listings := records_of (net e (S k) url) in
  let collection := (properties ++ page_listings)%list in
  let w1 := disk e (writes (trace st)) in
  let w2 := disk e (S (writes (trace st))) in
  let backup := backup_path output_file (clock e (length (trace st) + 4)) in
  let result :=
    scrape_one_page base_url output_file total_pages page properties e st in
  net e k url = Response 200 soup ->
  find (is_tag "div" "error-container") soup = None ->
  page_listings <> [] ->
  fst result = (next_page_check soup page total_pages, collection)
  /\ trace (snd result)
     = (trace st
        ++ [EvSleepUniform (1 # 2) (3 # 2); EvGet url; EvGet url;
            EvWrite output_file (JArr collection) (succeeded w1)]
        ++ (if succeeded w1 then []
            else [EvWrite backup (JArr collection) (succeeded w2)]))%list
  /\ (w1 = Written ->
      files (snd result) !! output_file = Some (FJson (JArr collection)))
  /\ (w1 <> Written -> w2 = Written ->
      files (snd result) !! backup = Some (FJson (JArr collection)))
  /\ pages_loop (S remaining) base_url output_file total_pages page
                properties e st
     = match next_page_check soup page total_pages with
       | Continue =>
           pages_loop remaining base_url output_file total_pages (page + 1)
                      collection e (snd result)
       | Stop why => (page, collection, Some why, snd result)
       end.
Proof.
  intros url k page_listings collection w1 w2 backup result Hr1 Herr Hne.
  set (wait := EvSleepUniform (1 # 2) (3 # 2)).
  set (st2 := after st [wait; EvGet url; EvGet url] (files st)).
  assert (Hres : result = (next_page_check soup page total_pages, collection,
                           snd (save output_file collection e st2))).
  { subst result.
    pose proof (scrape_one_page_eq base_url output_file total_pages page
                  properties e st) as H.
    cbv zeta in H. fold url k in H. rewrite Hr1, Herr in H.
    change (200 =? 404) with false in H. change (200 =? 200) with true in H.
    cbn [negb] in H. fold page_listings wait in H. fold st2 in H.
    fold collection in H. rewrite H. clearbody page_listings.
    destruct page_listings; [congruence|reflexivity]. }
  assert (Hw : writes (trace st2) = writes (trace st)).
  { subst st2. rewrite writes_after. unfold writes at 2. simpl. lia. }
  assert (Hl : S (length (trace st2)) = (length (trace st) + 4)%nat).
  { subst st2. unfold after. simpl. rewrite length_app. simpl. lia. }
  pose proof (save_eq output_file collection e st2) as Hs.
  cbv zeta in Hs. rewrite Hw, Hl in Hs. fold w1 w2 backup in Hs.
  rewrite Hs in Hres. cbn [snd] in Hres. clear Hs.
  split; [rewrite Hres; reflexivity|].
  split.
  { rewrite Hres. cbn [snd]. subst st2.
    destruct (succeeded w1); rewrite after_after; reflexivity. }
  split.
  { intros E1. rewrite Hres, E1. cbn [snd succeeded]. unfold after.
    cbn [files files_after_write]. apply lookup_insert_eq. }
  split.
  { intros E1 E2. rewrite Hres, E2.
    destruct w1 as [|res]; [congruence|]. cbn [snd succeeded]. unfold after.
    cbn [files files_after_write]. apply lookup_insert_eq. }
  cbn [pages_loop]. unfold World.bind. fold result.
  rewrite Hres. cbn [fst snd].
  destruct (next_page_check soup page total_pages); reflexivity.
Qed.

(** Claim C8 on a page with one qualifying listing and a disk on which
every write fails: the record is kept in memory, both writes are attempted,
and the page still ends with the check for a next page. *)
Lemma page_with_records_is_saved_witness :
  let e := broken_disk (Response 200 plain_page) in
  let result := scrape_one_page "b" "output.json" 3 1 [] e empty_state in
  fst result = (Stop NoPagination, extract_records plain_page)
  /\ List.filter is_write (trace (snd result))
     = [EvWrite "output.json" (JArr (extract_records plain_page)) false;
        EvWrite "output.json_backup_1700000000.json"
                (JArr (extract_records plain_page)) false].
Proof.
  intros e result.
  destruct (page_with_records_is_saved "b" "output.json" 3 1 [] e empty_state
              plain_page 0) as (H1 & H2 & _).
  - reflexivity.
  - reflexivity.
  - vm_compute. discriminate.
  - split.
    + exact H1.
    + subst result. rewrite H2. vm_compute. reflexivity.
Defined.

(** Claim C5, as stated, fails: page 1 of 3 is answered with a qualifying
listing, no pagination block and no search-results marker.  The claimed
decision is to continue, since 1 < 3; the code stops. *)
Lemma decision_is_not_as_claimed :
  fst (fst (scrape_one_page "b" "output.json" 3 1 []
              (constant_env (Response 200 plain_page)) empty_state))
    = Stop NoPagination
  /\ claimed_verdict
       (observe 200 plain_page (records_of (Response 200 plain_page)) 1 3)
     = Continue.
Proof. split; vm_compute; reflexivity. Qed.

(** Claim C5, amended.  When the request of a page is answered, the loop
decides in this order: stop on 404; stop on any other status than 200; stop
when the page has an error marker; stop when no listing was processed;
then, with a pagination block, continue exactly when it holds a next-page
element; without a pagination block, continue exactly when the page
carries the search-results marker and the page index is below the total. *)
Theorem continuation_decision (base_url output_file : string)
  (total_pages page : Z) (properties : list json) (e : env) (st : state)
  (status : Z) (soup : node) :
  let url := page_url base_url page in
  let k := length (requests (trace st)) in
  net e k url = Response status soup ->
  fst (fst (scrape_one_page base_url output_file total_pages page properties
                            e st))
  = amended_verdict
      (observe status soup (records_of (net e (S k) url)) page total_pages).
Proof.
  intros url k Hr.
  pose proof (scrape_one_page_value base_url output_file total_pages page
                properties e st) as H.
  cbv zeta in H. fold url k in H. rewrite H, Hr.
  unfold amended_verdict, observe. cbn [Traversal.status error_marker processed
    pagination_block next_page results_marker page_index total].
  destruct (status =? 404); [reflexivity|].
  destruct (negb (status =? 200)); [reflexivity|].
  destruct (found (find (is_tag "div" "error-container") soup)); [reflexivity|].
  destruct (records_of (net e (S k) url)) as [|x xs]; [reflexivity|].
  cbn [length Nat.eqb fst]. unfold next_page_check.
  destruct (find (is_tag "div" "pagination") soup) as [pg|]; cbn [found].
  - destruct (find (is_tag "a" "next-page") pg); reflexivity.
  - destruct (find (is_tag "p" "search-results") soup); cbn [found andb];
      [|reflexivity].
    destruct (page <? total_pages); reflexivity.
Qed.

(** The amended claim on the page of the counterexample, and on the same
page with the marker added. *)
Lemma continuation_decision_witness :
  fst (fst (scrape_one_page "b" "output.json" 3 1 []
              (constant_env (Response 200 plain_page)) empty_state))
    = Stop NoPagination
  /\ fst (fst (scrape_one_page "b" "output.json" 3 1 []
                 (constant_env
                    (Response 200 (document [listing_of "$2.5M";
                                             search_results "Page 1 of 3"])))
                 empty_state))
    = Continue.
Proof.
  split.
  - rewrite (continuation_decision "b" "output.json" 3 1 []
               (constant_env (Response 200 plain_page)) empty_state
               200 plain_page eq_refl).
    vm_compute. reflexivity.
  - rewrite (continuation_decision "b" "output.json" 3 1 []
               (constant_env
                  (Response 200 (document [listing_of "$2.5M";
                                           search_results "Page 1 of 3"])))
               empty_state 200 _ eq_refl).
    vm_compute. reflexivity.
Defined.

(** Claim C10, as stated, fails: it is not every page iteration that
makes two requests.  A page answered with 404 is requested once.  Nor does
the decision rest on the first response alone: when the first response
shows a listing and a next-page link and the second shows no qualifying
listing, the loop stops for want of listings. *)
Lemma page_iteration_is_not_always_two_fetches :
  requests (trace (snd (scrape_one_page "b" "output.json" 3 1 []
                          (constant_env (Response 404 (document [])))
                          empty_state)))
    = ["b/"]
  /\ fst (fst (scrape_one_page "b" "output.json" 3 1 [] changing_server
                               empty_state))
     = Stop NoListings
  /\ fst (one_fetch_outcome (Response 200 page_with_next) 3 1 []) = Continue.
Proof. split; [|split]; vm_compute; reflexivity. Qed.

(** Claim C10, amended.  A page iteration requests the page URL once, and
a second time, through [scrape_page], exactly when the first response has
status 200 and no error marker.  In that case the records appended are
those of the second response; the stop for want of listings is decided on
the second response and the check for a next page on the first.  When the
server answers the same URL in the same way every time, the iteration gives
the verdict and the collection of an iteration that fetches once. *)
Theorem page_is_fetched_twice (base_url output_file : string)
  (total_pages page : Z) (properties : list json) (e : env) (st : state) :
  let url := page_url base_url page in
  let k := length (requests (trace st)) in
  let r1 := net e k url in
  let r2 := net e (S k) url in
  let result :=
    scrape_one_page base_url output_file total_pages page properties e st in
  requests (trace (snd result))
    = (requests (trace st)
       ++ (if passes_checks r1 then [url; url] else [url]))%list
  /\ (forall soup, r1 = Response 200 soup ->
        find (is_tag "div" "error-container") soup = None ->
        fst result =
          match records_of r2 with
          | [] => (Stop NoListings, properties)
          | _ :: _ => (next_page_check soup page total_pages,
                       (properties ++ records_of r2)%list)
          end)
  /\ (passes_checks r1 = false ->
      snd (fst result) = properties /\ fst (fst result) <> Continue)
  /\ ((forall i j u, net e i u = net e j u) ->
      fst result = one_fetch_outcome r1 total_pages page properties).
Proof.
  intros url k r1 r2 result.
  pose proof (scrape_one_page_value base_url output_file total_pages page
                properties e st) as H.
  cbv zeta in H. fold url k r1 r2 result in H.
  split; [apply scrape_one_page_requests|].
  split.
  { intros soup Hr Herr. rewrite H, Hr, Herr. reflexivity. }
  split.
  { intros Hp. rewrite H. unfold passes_checks in Hp.
    destruct r1 as [status soup|]; [|split; [reflexivity|discriminate]].
    destruct (status =? 404); [split; [reflexivity|discriminate]|].
    destruct (status =? 200); cbn [negb andb] in *;
      [|split; [reflexivity|discriminate]].
    destruct (found _); [split; [reflexivity|discriminate]|discriminate]. }
  intros Hdet. assert (E : r2 = r1) by apply Hdet.
  rewrite H, E. clear H E. clearbody r1. unfold one_fetch_outcome.
  destruct r1 as [status soup|]; [|reflexivity].
  destruct (status =? 404); [reflexivity|].
  destruct (status =? 200) eqn:E200; cbn [negb]; [|reflexivity].
  destruct (found _); [reflexivity|].
  unfold records_of. rewrite E200.
  destruct (extract_records soup); reflexivity.
Qed.

(** The amended claim on a server that always answers with the same page:
two requests to the same URL, and the outcome of a single fetch. *)
Lemma page_is_fetched_twice_witness :
  let e := constant_env (Response 200 page_with_next) in
  let result := scrape_one_page "b" "output.json" 3 1 [] e empty_state in
  requests (trace (snd result)) = ["b/"; "b/"]
  /\ fst result = one_fetch_outcome (Response 200 page_with_next) 3 1 [].
Proof.
  intros e result.
  destruct (page_is_fetched_twice "b" "output.json" 3 1 [] e empty_state)
    as (H1 & _ & _ & H4).
  split.
  - subst result. rewrite H1. vm_compute. reflexivity.
  - apply H4. intros i j u. reflexivity.
Defined.

End TraversalClaims.

(** * Further properties of [process_listing] *)

Module ListingExtras.
Import PyStr PyNum PyExn Price Soup Json Listing World Scraper Samples.
Import PyStrFacts PyNumFacts PriceFacts PriceSpec ListingClaims Details.

(** X1.  A listing gives a record exactly when its price text normalises
to a value that is not below the threshold: nothing else in the listing
(details that do not parse, a missing address, a missing agent) can drop it
or save it. *)
Theorem listing_kept_iff_price (listing : node) :
  process_listing listing <> None <->
  exists v, convert_price_to_number (fst (price_and_status listing)) = Returns v
            /\ lt_int v price_threshold = false.
Proof.
  rewrite process_listing_eq.
  destruct (convert_price_to_number _) as [v|e].
  - destruct (lt_int v price_threshold) eqn:Hlt.
    + split; [congruence|]. intros (v' & [= <-] & H). congruence.
    + split; [|discriminate]. intros _. exists v. auto.
  - split; [congruence|]. intros (v' & H & _). discriminate.
Qed.

(** X2.  A listing with no price element (neither [p.price-container] nor
[p.price]) never gives a record: its price text is empty and normalises to
0. *)
Theorem listing_without_price_is_dropped (listing : node) :
  find (is_tag "p" "price-container") listing = None ->
  find (is_tag "p" "price") listing = None ->
  price_and_status listing = ("", "") /\ process_listing listing = None.
Proof.
  intros H1 H2.
  assert (E : price_and_status listing = ("", "")).
  { unfold price_and_status. rewrite H1, H2. reflexivity. }
  split; [exact E|]. rewrite process_listing_eq, E. reflexivity.
Qed.

Lemma listing_without_price_is_dropped_witness :
  process_listing
    (Tag "div" ["for-sale-content-container"] []
       [Tag "p" ["property-name"] [] [Text "1 Main St"]]) = None.
Proof.
  apply (listing_without_price_is_dropped
           (Tag "div" ["for-sale-content-container"] []
              [Tag "p" ["property-name"] [] [Text "1 Main St"]]));
    reflexivity.
Defined.

Lemma runs_from_all p s :
  forallb_str p (fst (runs_from p s)) = true
  /\ Forall (fun w => forallb_str p w = true) (snd (runs_from p s)).
Proof.
  induction s as [|c s [IH1 IH2]]; simpl; [split; [reflexivity|constructor]|].
  destruct (runs_from p s) as [w ws]. simpl in IH1, IH2.
  destruct (p c) eqn:Hc; simpl.
  - rewrite Hc, IH1. split; [reflexivity|exact IH2].
  - split; [reflexivity|]. unfold cons_run.
    destruct (is_empty w); [exact IH2|]. constructor; assumption.
Qed.

(** Every run of [runs p s] is made of characters satisfying [p]. *)
Lemma runs_all p s : Forall (fun w => forallb_str p w = true) (runs p s).
Proof.
  unfold runs. destruct (runs_from_all p s) as [H1 H2].
  destruct (runs_from p s) as [w ws]. simpl in H1, H2.
  unfold cons_run. destruct (is_empty w); [exact H2|].
  constructor; assumption.
Qed.

(** X3.  The price text handed to [convert_price_to_number] is one token:
it contains no white space, so the [strip] of the conversion changes
nothing and the white space that the suffix pattern allows between the
number and the "m" can never occur. *)
Theorem price_text_is_one_token (listing : node) :
  let price_text := fst (price_and_status listing) in
  forallb_str (fun c => negb (is_space c)) price_text = true
  /\ strip price_text = price_text.
Proof.
  intros price_text.
  assert (H : forallb_str (fun c => negb (is_space c)) price_text = true).
  { subst price_text. unfold price_and_status.
    destruct (or_else _ _) as [pc|]; [|reflexivity].
    pose proof (runs_all (fun c => negb (is_space c)) (get_text_strip pc)) as Ha.
    fold (split_ws (get_text_strip pc)) in Ha.
    destruct (split_ws (get_text_strip pc)) as [|w1 ws] eqn:E.
    - destruct (find _ pc); reflexivity.
    - assert (Hp : forallb_str (fun c => negb (is_space c))
                     (fst (if String.eqb w1 "Est"
                              && (1 <? Z.of_nat (length (w1 :: ws)))
                           then (nth 1 (w1 :: ws) "", "Estimated Price")
                           else (w1, if 1 <? Z.of_nat (length (w1 :: ws))
                                     then join " " ws else ""))) = true).
      { inversion Ha as [|? ? Hw1 Hws]; subst.
        destruct (_ && _); simpl; [|exact Hw1].
        destruct ws as [|w2 ws']; [reflexivity|].
        inversion Hws; assumption. }
      destruct (if _ && _ then _ else _) as [pt stt]. simpl in Hp.
      destruct (find _ pc); exact Hp. }
  split; [exact H|].
  apply (strip_id (fun c => negb (is_space c))); [|exact H].
  intros c Hc. apply negb_true_iff in Hc. exact Hc.
Qed.







End ListingExtras.

(** * Further properties of [scrape_page] and of the URLs *)

Module FetchExtras.
Import PyStr PyNum PyExn Price Soup Json Listing World Scraper Samples.
Import Traversal Retry PyStrFacts WorldFacts TraversalFacts ListingClaims.

Lemma attempts_fail (n : nat) (delay : Z) (url : string) (e : env) :
  (forall k, retryable (net e k url) = true) ->
  forall len a st, (a + len = n)%nat -> (1 <= len)%nat ->
  scrape_page_attempts (Z.of_nat n) delay (List.map Z.of_nat (seq a len)) url
                       e st
  = ([], after st (EvGet url :: retries (len - 1) delay url) (files st)).
Proof.
  intros Hnet. induction len as [|len IH]; intros a st Ha Hlen; [lia|].
  cbn [seq List.map scrape_page_attempts]. unfold World.bind at 1.
  unfold http_get at 1. rewrite emit_after.
  pose proof (Hnet (length (requests (trace st)))) as Hr.
  assert (Hlt : (Z.of_nat a <? Z.of_nat n - 1) = negb (Nat.eqb len 0)).
  { destruct len; simpl; [apply Z.ltb_ge|apply Z.ltb_lt]; lia. }
  assert (Hstep :
    (if Z.of_nat a <? Z.of_nat n - 1
     then World.bind (sleep delay) (fun _ =>
            scrape_page_attempts (Z.of_nat n) delay
              (List.map Z.of_nat (seq (S a) len)) url)
     else ret []) e (after st [EvGet url] (files st))
    = ([], after st (EvGet url :: retries (S len - 1) delay url) (files st))).
  { rewrite Hlt. destruct len as [|len']; cbn [Nat.eqb negb].
    - reflexivity.
    - unfold World.bind, sleep. cbv beta iota.
      rewrite emit_after, after_after.
      rewrite (IH (S a) _ ltac:(lia) ltac:(lia)). rewrite after_after.
      cbn [files after]. simpl. rewrite Nat.sub_0_r. reflexivity. }
  destruct (net e _ url) as [status soup|]; simpl in Hr.
  - rewrite Hr. exact Hstep.
  - exact Hstep.
Qed.

(** X5.  The loop of [scrape_page], for any number [max_retries] of
attempts: against a server that keeps answering 403 or failing, it makes
exactly [max_retries] requests with a sleep of [retry_delay] before each
but the first, returns no record and touches no file; with
[max_retries <= 0] it makes no request at all.  So [max_retries] counts
the attempts, not the retries. *)
Theorem attempts_on_persistent_failure (max_retries retry_delay : Z)
  (url : string) (e : env) (st : state) :
  (forall k, retryable (net e k url) = true) ->
  scrape_page_attempts max_retries retry_delay (range max_retries) url e st
  = ([], if 1 <=? max_retries
         then after st (EvGet url
                        :: retries (Z.to_nat max_retries - 1) retry_delay url)
                    (files st)
         else st).
Proof.
  intros Hnet. unfold range. destruct (1 <=? max_retries) eqn:E.
  - apply Z.leb_le in E.
    rewrite <- (Z2Nat.id max_retries) at 1 by lia.
    apply attempts_fail; [exact Hnet|lia|lia].
  - apply Z.leb_gt in E. replace (Z.to_nat max_retries) with 0%nat by lia.
    reflexivity.
Qed.

(** X5 with three attempts against a server that always answers 403. *)
Lemma attempts_on_persistent_failure_witness :
  trace (snd (scrape_page_attempts 3 2 (range 3) "u"
                (constant_env (Response 403 (document []))) empty_state))
  = [EvGet "u"; EvSleep 2; EvGet "u"; EvSleep 2; EvGet "u"].
Proof.
  rewrite (attempts_on_persistent_failure 3 2 "u"
             (constant_env (Response 403 (document []))) empty_state).
  - reflexivity.
  - intros k. reflexivity.
Defined.

Lemma keep_some_app {A} (a b : list (option A)) :
  keep_some (a ++ b) = (keep_some a ++ keep_some b)%list.
Proof.
  induction a as [|[x|] a IH]; simpl; [reflexivity| |exact IH].
  rewrite IH. reflexivity.
Qed.

(** X6.  The records of a page are those of the for-sale containers, in
document order, followed by those of the off-market containers, whatever
the order of the two kinds in the document; the tags with
[data-nosnippet] are looked at only when the page has no container of
either kind. *)
Theorem for_sale_records_come_first (soup : node) :
  let for_sale := find_all (is_tag "div" "for-sale-content-container") soup in
  let off_market := find_all (is_tag "div" "off-market-content-container") soup in
  extract_records soup =
    match for_sale, off_market with
    | [], [] => records (find_all (has_attr "div" "data-nosnippet") soup)
    | _, _ => (records for_sale ++ records off_market)%list
    end.
Proof.
  intros for_sale off_market. unfold extract_records, listing_elements.
  fold for_sale off_market. unfold records.
  destruct for_sale as [|x xs].
  - destruct off_market as [|y ys]; reflexivity.
  - rewrite <- keep_some_app, <- List.map_app. reflexivity.
Qed.

Lemma rstrip_char_app_keep x a b :
  b <> "" -> rstrip_char x b = b -> rstrip_char x (a ++ b) = a ++ b.
Proof.
  intros Hb Hr. induction a as [|c a IH]; simpl; [exact Hr|].
  rewrite IH. destruct (a ++ b) eqn:E.
  - destruct a; simpl in E; congruence.
  - rewrite andb_false_r. reflexivity.
Qed.

(** The base URL of a location never ends with "/": it ends with
"all-inventory". *)
Lemma base_url_keeps_its_end location :
  rstrip_char "/" (base_url_of location) = base_url_of location.
Proof.
  unfold base_url_of.
  destruct (1 <? Z.of_nat (length _)).
  - apply rstrip_char_app_keep.
    { apply PriceSpec.append_nonempty_r, PriceSpec.append_nonempty_r,
        PriceSpec.append_nonempty_r. discriminate. }
    apply rstrip_char_app_keep.
    { apply PriceSpec.append_nonempty_r, PriceSpec.append_nonempty_r.
      discriminate. }
    apply rstrip_char_app_keep.
    { apply PriceSpec.append_nonempty_r. discriminate. }
    apply rstrip_char_app_keep; [discriminate|reflexivity].
  - apply rstrip_char_app_keep.
    { apply PriceSpec.append_nonempty_r. discriminate. }
    apply rstrip_char_app_keep; [discriminate|reflexivity].
Qed.

(** X7.  The URL of a page, for every location: page 1 (and below) is the
base URL followed by "/", a later page is the base URL followed by
"/p<page>/".  The test for "neighborhood" in the base URL makes no
difference, because the base URL built from a location never ends with a
slash that could be stripped. *)
Theorem page_url_of_location (location : string) (page : Z) :
  page_url (base_url_of location) page =
    if 1 <? page
    then base_url_of location ++ "/p" ++ str_of_Z page ++ "/"
    else base_url_of location ++ "/".
Proof.
  unfold page_url. destruct (1 <? page); [|reflexivity].
  destruct (contains "neighborhood" (base_url_of location)); [|reflexivity].
  rewrite base_url_keeps_its_end. reflexivity.
Qed.

End FetchExtras.

(** * Further properties of [scrape_real_estate_listings] *)

Module RunExtras.
Import PyStr PyNum PyExn Price Soup Json Listing World Scraper Samples.
Import Traversal Retry Run PyStrFacts WorldFacts TraversalFacts ListingClaims.

Lemma pages_loop_step remaining base_url output_file total_pages page
  properties e st :
  pages_loop (S remaining) base_url output_file total_pages page properties
             e st
  = let '(v, properties', st') :=
      scrape_one_page base_url output_file total_pages page properties e st in
    match v with
    | Continue =>
        pages_loop remaining base_url output_file total_pages (page + 1)
                   properties' e st'
    | Stop why => (page, properties', Some why, st')
    end.
Proof.
  cbn [pages_loop]. unfold World.bind.
  destruct (scrape_one_page _ _ _ _ _ e st) as [[v p] st'].
  destruct v; reflexivity.
Qed.

Lemma load_existing_eq output_file e st :
  load_existing output_file e st
  = (match load_failure output_file st with
     | Some exc => Raises exc
     | None => Returns (loaded output_file st)
     end, st).
Proof.
  unfold load_existing, loaded, load_failure, World.bind, read_file, World.ret.
  destruct (files st !! output_file) as [[[]| |]|]; reflexivity.
Qed.

Lemma get_total_pages_state base_url e st :
  snd (get_total_pages base_url e st) = after st [EvGet base_url] (files st).
Proof. reflexivity. Qed.

(** The run, in one equation: it raises at the load, or goes through the
pages and ends with the last log line. *)
Lemma run_eq location output_file e st :
  let base_url := base_url_of location in
  let total_pages := fst (get_total_pages base_url e st) in
  let st1 := after st [EvGet base_url] (files st) in
  let loop := pages_loop (Z.to_nat (total_pages + 1 - 1)) base_url output_file
                         total_pages 1 (loaded output_file st) e st1 in
  scrape_real_estate_listings location output_file e st
  = match load_failure output_file st with
    | Some exc => (Raises exc, st)
    | None =>
        (if total_pages =? 0 then Raises ZeroDivisionError
         else Returns (snd (fst (fst loop))),
         snd loop)
    end.
Proof.
  intros base_url total_pages st1 loop.
  unfold scrape_real_estate_listings, World.bind at 1.
  rewrite load_existing_eq.
  destruct (load_failure output_file st); [reflexivity|].
  unfold World.bind at 1. fold base_url.
  rewrite (surjective_pairing (get_total_pages base_url e st)).
  fold total_pages. rewrite get_total_pages_state. fold st1.
  unfold World.bind. fold loop.
  destruct loop as [[[pg props] why] st']. unfold World.ret, closing_log.
  cbn [fst snd]. destruct (total_pages =? 0); reflexivity.
Qed.

Lemma records_of_priced r : Forall priced (records_of r).
Proof.
  apply List.Forall_forall. intros x Hx. unfold records_of in Hx.
  destruct r as [status soup|]; [|destruct Hx].
  destruct (status =? 200); [|destruct Hx].
  exact (extract_records_at_least_threshold soup x Hx).
Qed.

(** One page leaves the collection as it is or appends the records of the
second response. *)
Lemma scrape_one_page_appends base_url output_file total_pages page
  properties e st :
  exists added,
    snd (fst (scrape_one_page base_url output_file total_pages page properties
                              e st)) = (properties ++ added)%list
    /\ Forall priced added.
Proof.
  rewrite scrape_one_page_value.
  set (r1 := net e (length (requests (trace st))) (page_url base_url page)).
  set (r2 := net e (S _) _). clearbody r1 r2.
  assert (H0 : exists added, properties = (properties ++ added)%list
                             /\ Forall priced added).
  { exists []. rewrite app_nil_r. split; [reflexivity|constructor]. }
  destruct r1 as [status soup|]; [|exact H0].
  destruct (status =? 404); [exact H0|].
  destruct (negb _); [exact H0|].
  destruct (found _); [exact H0|].
  destruct (records_of r2) eqn:E; [exact H0|].
  exists (records_of r2). rewrite E. split; [reflexivity|].
  rewrite <- E. apply records_of_priced.
Qed.

Lemma pages_loop_appends base_url output_file total_pages e remaining :
  forall page properties st,
  exists added,
    snd (fst (fst (pages_loop remaining base_url output_file total_pages page
                              properties e st)))
    = (properties ++ added)%list
    /\ Forall priced added.
Proof.
  induction remaining as [|n IH]; intros page properties st.
  - exists []. simpl. rewrite app_nil_r. split; [reflexivity|constructor].
  - rewrite pages_loop_step.
    destruct (scrape_one_page_appends base_url output_file total_pages page
                properties e st) as (a1 & H1 & F1).
    destruct (scrape_one_page _ _ _ _ _ e st) as [[v p] st']. simpl in H1.
    subst p. destruct v as [|why].
    + destruct (IH (page + 1) (properties ++ a1)%list st') as (a2 & H2 & F2).
      exists (a1 ++ a2)%list. rewrite H2, app_assoc.
      split; [reflexivity|]. apply Forall_app. split; assumption.
    + exists a1. split; [reflexivity|exact F1].
Qed.

(** A run raises nothing but the exception of the load and that of the
last log line. *)
Lemma run_raises location output_file e st exc :
  collected location output_file e st = Raises exc ->
  load_failure output_file st = Some exc \/ exc = ZeroDivisionError.
Proof.
  unfold collected. pose proof (run_eq location output_file e st) as H.
  cbv zeta in H. rewrite H.
  destruct (load_failure output_file st) as [exc'|]; cbn [fst].
  - intros [= <-]. left. reflexivity.
  - destruct (_ =? 0); [|discriminate]. intros [= <-]. right. reflexivity.
Qed.

(** X8.  How a run ends.  It raises, before any request, the exception that
the load of the output file lets through ([UnicodeDecodeError] for a file
that is not UTF-8 text, the others of [raised_by]); and it raises
[ZeroDivisionError], from the last log line, when the total read from the
first page is zero.  In every other case it returns, and never drops or
reorders the records it loaded: the collection returned is the loaded
collection followed by the records added by this run, and each added record
carries a price at or above the threshold.  Nothing is deduplicated: what
was loaded stays, also when the same listings are found again. *)
Theorem run_keeps_loaded_records (location output_file : string) (e : env)
  (st : state) :
  let total_pages := fst (get_total_pages (base_url_of location) e st) in
  (forall exc, load_failure output_file st = Some exc ->
     scrape_real_estate_listings location output_file e st = (Raises exc, st))
  /\ (load_failure output_file st = None -> total_pages = 0 ->
      collected location output_file e st = Raises ZeroDivisionError)
  /\ (load_failure output_file st = None -> total_pages <> 0 ->
      exists added,
        collected location output_file e st
        = Returns (loaded output_file st ++ added)%list
        /\ Forall priced added).
Proof.
  intros total_pages. unfold collected.
  pose proof (run_eq location output_file e st) as H.
  cbv zeta in H. fold total_pages in H. rewrite H. clear H.
  split; [|split].
  - intros exc ->. reflexivity.
  - intros -> ->. reflexivity.
  - intros -> Ht. apply Z.eqb_neq in Ht. rewrite Ht.
    destruct (pages_loop_appends (base_url_of location) output_file
                total_pages e (Z.to_nat (total_pages + 1 - 1)) 1
                (loaded output_file st)
                (after st [EvGet (base_url_of location)] (files st)))
      as (added & Ha & Hp).
    exists added. split; [|exact Hp]. rewrite <- Ha. reflexivity.
Qed.

(** X8 on an output file that is not UTF-8 text, on a server whose first
page reads "Page 1 of 0", and on one that always shows the same qualifying
listing. *)
Lemma run_keeps_loaded_records_witness :
  let broken :=
    {| trace := []; files := {[ "output.json" := FUnreadable NotUtf8 ]} |} in
  scrape_real_estate_listings "austin tx" "output.json"
    (constant_env (Response 200 plain_page)) broken
  = (Raises UnicodeDecodeError, broken)
  /\ collected "austin tx" "output.json"
            (constant_env
               (Response 200 (document [search_results "Page 1 of 0"])))
            empty_state
  = Raises ZeroDivisionError
  /\ exists added,
       collected "austin tx" "output.json"
                 (constant_env (Response 200 plain_page)) empty_state
       = Returns ([] ++ added)%list
       /\ Forall priced added.
Proof.
  intros broken. split; [|split].
  - apply (proj1 (run_keeps_loaded_records "austin tx" "output.json"
                    (constant_env (Response 200 plain_page)) broken)).
    reflexivity.
  - apply (proj1 (proj2 (run_keeps_loaded_records "austin tx" "output.json"
                           (constant_env
                              (Response 200
                                 (document [search_results "Page 1 of 0"])))
                           empty_state))).
    + reflexivity.
    + reflexivity.
  - apply (proj2 (proj2 (run_keeps_loaded_records "austin tx" "output.json"
                           (constant_env (Response 200 plain_page))
                           empty_state))).
    + reflexivity.
    + vm_compute. discriminate.
Defined.

Lemma scrape_one_page_requests_bound base_url output_file total_pages page
  properties e st :
  (length (requests (trace (snd (scrape_one_page base_url output_file
                                   total_pages page properties e st))))
   <= length (requests (trace st)) + 2)%nat.
Proof.
  rewrite scrape_one_page_requests, length_app.
  destruct (passes_checks _); simpl; lia.
Qed.

Lemma pages_loop_requests_bound base_url output_file total_pages e remaining :
  forall page properties st,
  (length (requests (trace (snd (pages_loop remaining base_url output_file
                                   total_pages page properties e st))))
   <= length (requests (trace st)) + 2 * remaining)%nat.
Proof.
  induction remaining as [|n IH]; intros page properties st; [simpl; lia|].
  rewrite pages_loop_step.
  pose proof (scrape_one_page_requests_bound base_url output_file total_pages
                page properties e st) as H1.
  destruct (scrape_one_page _ _ _ _ _ e st) as [[v p] st']. simpl in H1.
  destruct v as [|why]; [|simpl; lia].
  specialize (IH (page + 1) p st'). lia.
Qed.

(** X9.  A run makes at most one request for the total and two requests
for each of the [total_pages] pages; in particular it ends. *)
Theorem run_request_bound (location output_file : string) (e : env)
  (st : state) :
  let total_pages := fst (get_total_pages (base_url_of location) e st) in
  (length (requests (trace (final_state location output_file e st)))
   <= length (requests (trace st)) + 1 + 2 * Z.to_nat total_pages)%nat.
Proof.
  intros total_pages. unfold final_state.
  pose proof (run_eq location output_file e st) as H. cbv zeta in H.
  rewrite H. destruct (load_failure output_file st); cbn [snd]; [lia|].
  fold total_pages.
  pose proof (pages_loop_requests_bound (base_url_of location) output_file
                total_pages e (Z.to_nat (total_pages + 1 - 1)) 1
                (loaded output_file st)
                (after st [EvGet (base_url_of location)] (files st))) as Hb.
  rewrite requests_after in Hb. rewrite length_app in Hb. simpl in Hb.
  replace (Z.to_nat (total_pages + 1 - 1)) with (Z.to_nat total_pages) in *
    by lia.
  lia.
Qed.



(** X11.  A page that adds nothing changes nothing: when the first
response does not pass the checks (an exception, 404, another status, an
error marker) or the extraction gives no record, the loop stops there with
the collection as it was, no file is written and the files are as
before. *)
Theorem page_without_records_changes_nothing (base_url output_file : string)
  (total_pages page : Z) (properties : list json) (e : env) (st : state)
  (remaining : nat) :
  let url := page_url base_url page in
  let k := length (requests (trace st)) in
  let st' := snd (scrape_one_page base_url output_file total_pages page
                                  properties e st) in
  passes_checks (net e k url) = false \/ records_of (net e (S k) url) = [] ->
  (exists why,
     pages_loop (S remaining) base_url output_file total_pages page
                properties e st = (page, properties, Some why, st'))
  /\ files st' = files st
  /\ writes (trace st') = writes (trace st).
Proof.
  intros url k st' Hfail. subst st'. rewrite pages_loop_step.
  pose proof (scrape_one_page_eq base_url output_file total_pages page
                properties e st) as H.
  cbv zeta in H. fold url k in H. rewrite H. clear H.
  set (r1 := net e k url) in *. set (r2 := net e (S k) url) in *.
  clearbody r1 r2. unfold passes_checks in Hfail.
  assert (Hw : forall evs, writes evs = 0%nat ->
            writes (trace (after st evs (files st))) = writes (trace st)).
  { intros evs Hevs. rewrite writes_after, Hevs. lia. }
  destruct r1 as [status soup|];
    [|split; [eexists; reflexivity|split; [reflexivity|apply Hw; reflexivity]]].
  destruct (status =? 404);
    [split; [eexists; reflexivity|split; [reflexivity|apply Hw; reflexivity]]|].
  destruct (status =? 200); cbn [negb andb] in *;
    [|split; [eexists; reflexivity|split; [reflexivity|apply Hw; reflexivity]]].
  destruct (find _ soup); cbn [found negb] in *;
    [split; [eexists; reflexivity|split; [reflexivity|apply Hw; reflexivity]]|].
  destruct Hfail as [Hf|Hf]; [discriminate|]. rewrite Hf.
  split; [eexists; reflexivity|split; [reflexivity|apply Hw; reflexivity]].
Qed.

(** X11 on page 2 of 3 answered with 404, with one record in memory. *)
Lemma page_without_records_changes_nothing_witness :
  let e := constant_env (Response 404 (document [])) in
  let kept := [JObj [("Price:", JStr "$2.5M")]] in
  exists why, fst (pages_loop 2 "b" "output.json" 3 2 kept e empty_state)
              = (2, kept, Some why).
Proof.
  intros e kept.
  destruct (page_without_records_changes_nothing "b" "output.json" 3 2 kept e
              empty_state 1) as ((why & H) & _ & _).
  - left. reflexivity.
  - exists why. rewrite H. reflexivity.
Defined.

Lemma scrape_one_page_same_net base_url output_file total_pages page
  properties e e' st st' :
  (forall k u, net e k u = net e' k u) ->
  length (requests (trace st)) = length (requests (trace st')) ->
  fst (scrape_one_page base_url output_file total_pages page properties e st)
  = fst (scrape_one_page base_url output_file total_pages page properties
                         e' st')
  /\ length (requests (trace (snd (scrape_one_page base_url output_file
                                     total_pages page properties e st))))
     = length (requests (trace (snd (scrape_one_page base_url output_file
                                       total_pages page properties e' st')))).
Proof.
  intros Hnet Hlen. split.
  - rewrite !scrape_one_page_value, <- Hlen, !Hnet. reflexivity.
  - rewrite !scrape_one_page_requests, !length_app, <- Hlen, !Hnet.
    reflexivity.
Qed.

Lemma pages_loop_same_net base_url output_file total_pages e e' remaining :
  (forall k u, net e k u = net e' k u) ->
  forall page properties st st',
  length (requests (trace st)) = length (requests (trace st')) ->
  fst (pages_loop remaining base_url output_file total_pages page properties
                  e st)
  = fst (pages_loop remaining base_url output_file total_pages page properties
                    e' st').
Proof.
  intros Hnet. induction remaining as [|n IH]; intros page properties st st' Hl;
    [reflexivity|].
  rewrite !pages_loop_step.
  destruct (scrape_one_page_same_net base_url output_file total_pages page
              properties e e' st st' Hnet Hl) as [H1 H2].
  destruct (scrape_one_page _ _ _ _ _ e st) as [[v p] s1].
  destruct (scrape_one_page _ _ _ _ _ e' st') as [[v' p'] s1'].
  simpl in H1, H2. injection H1 as <- <-.
  destruct v; [apply IH; exact H2|reflexivity].
Qed.

(** X12.  What the disk and the clock do never reaches the collection: two
runs from the same state against servers that answer alike end alike, with
the same collection or the same exception, whether the writes succeed, fail
or leave broken files. *)
Theorem run_ignores_disk_and_clock (location output_file : string)
  (e e' : env) (st : state) :
  (forall k u, net e k u = net e' k u) ->
  collected location output_file e st = collected location output_file e' st.
Proof.
  intros Hnet. unfold collected.
  pose proof (run_eq location output_file e st) as H.
  pose proof (run_eq location output_file e' st) as H'.
  cbv zeta in H, H'. rewrite H, H'. clear H H'.
  destruct (load_failure output_file st); [reflexivity|]. cbn [fst].
  rewrite !TraversalClaims.get_total_pages_eq, <- !Hnet.
  set (total_pages := match net e _ _ with Response _ _ => _ | _ => _ end).
  destruct (total_pages =? 0); [reflexivity|]. f_equal. f_equal. f_equal.
  apply pages_loop_same_net; [exact Hnet|reflexivity].
Qed.

(** X12 on a healthy disk and on a disk where every write fails. *)
Lemma run_ignores_disk_and_clock_witness :
  collected "austin tx" "output.json" (constant_env (Response 200 plain_page))
            empty_state
  = collected "austin tx" "output.json" (broken_disk (Response 200 plain_page))
              empty_state.
Proof.
  apply run_ignores_disk_and_clock. intros k u. reflexivity.
Defined.

Lemma scrape_one_page_file base_url output_file total_pages page properties
  e st :
  (forall k, disk e k = Written) ->
  let res := scrape_one_page base_url output_file total_pages page properties
                             e st in
  (snd (fst res) = properties /\ files (snd res) = files st)
  \/ files (snd res) !! output_file = Some (FJson (JArr (snd (fst res)))).
Proof.
  intros Hdisk res. subst res.
  pose proof (scrape_one_page_eq base_url output_file total_pages page
                properties e st) as H.
  cbv zeta in H. rewrite H. clear H.
  set (r1 := net e _ _). set (r2 := net e (S _) _). clearbody r1 r2.
  destruct r1 as [status soup|]; [|left; split; reflexivity].
  destruct (status =? 404); [left; split; reflexivity|].
  destruct (negb _); [left; split; reflexivity|].
  destruct (find _ soup); [left; split; reflexivity|].
  destruct (records_of r2) as [|x xs] eqn:E; [left; split; reflexivity|].
  right. cbn [fst snd].
  pose proof (save_eq output_file (properties ++ x :: xs)
                (e) (after st [EvSleepUniform (1 # 2) (3 # 2);
                               EvGet (page_url base_url page);
                               EvGet (page_url base_url page)] (files st)))
    as Hs.
  cbv zeta in Hs. rewrite Hs, Hdisk. cbn [succeeded snd after files
    files_after_write]. apply lookup_insert_eq.
Qed.

Lemma pages_loop_file base_url output_file total_pages e remaining :
  (forall k, disk e k = Written) ->
  forall page properties st,
  let res := pages_loop remaining base_url output_file total_pages page
                        properties e st in
  (snd (fst (fst res)) = properties /\ files (snd res) = files st)
  \/ files (snd res) !! output_file
     = Some (FJson (JArr (snd (fst (fst res))))).
Proof.
  intros Hdisk. induction remaining as [|n IH]; intros page properties st res;
    subst res; [left; split; reflexivity|].
  rewrite pages_loop_step.
  pose proof (scrape_one_page_file base_url output_file total_pages page
                properties e st Hdisk) as H1. cbv zeta in H1.
  destruct (scrape_one_page _ _ _ _ _ e st) as [[v p] s1]. simpl in H1.
  destruct v as [|why]; [|exact H1].
  specialize (IH (page + 1) p s1). cbv zeta in IH.
  destruct IH as [[Hp Hf]|Hfile]; [|right; exact Hfile].
  rewrite Hp, Hf. exact H1.
Qed.

(** X13.  On a disk where every write succeeds, a run that returns ends in
one of two ways: nothing was added and no file was changed, or the output
file holds exactly the collection that the run returns. *)
Theorem healthy_disk_file_is_collection (location output_file : string)
  (e : env) (st : state) (properties : list json) :
  (forall k, disk e k = Written) ->
  collected location output_file e st = Returns properties ->
  (properties = loaded output_file st
   /\ files (final_state location output_file e st) = files st)
  \/ files (final_state location output_file e st) !! output_file
     = Some (FJson (JArr properties)).
Proof.
  intros Hdisk. unfold collected, final_state.
  pose proof (run_eq location output_file e st) as H. cbv zeta in H.
  rewrite H. clear H.
  destruct (load_failure output_file st); cbn [fst snd]; [discriminate|].
  destruct (_ =? 0); [discriminate|]. intros [= <-].
  exact (pages_loop_file _ output_file _ e _ Hdisk 1 (loaded output_file st)
           (after st [EvGet (base_url_of location)] (files st))).
Qed.

(** X13 on a server that always shows one qualifying listing: the file
holds the record that the run returns. *)
Lemma healthy_disk_file_is_collection_witness :
  let e := constant_env (Response 200 plain_page) in
  let properties := extract_records plain_page in
  collected "austin tx" "output.json" e empty_state = Returns properties
  /\ ((properties = loaded "output.json" empty_state
       /\ files (final_state "austin tx" "output.json" e empty_state)
          = files empty_state)
      \/ files (final_state "austin tx" "output.json" e empty_state)
           !! "output.json"
         = Some (FJson (JArr properties))).
Proof.
  intros e properties.
  assert (H : collected "austin tx" "output.json" e empty_state
              = Returns properties) by (vm_compute; reflexivity).
  split; [exact H|].
  apply (healthy_disk_file_is_collection "austin tx" "output.json" e
           empty_state properties); [intros k; reflexivity|exact H].
Defined.

End RunExtras.

(** * Properties of [main] *)

Module MainExtras.
Import PyStr PyNum PyExn Price Soup Json Listing World Scraper Main Samples.
Import Traversal Retry Run PyStrFacts WorldFacts TraversalFacts RunExtras.






(** X14.  Lines of the input that are blank after [strip] are skipped: the
loop of [main] does on a list of lines what it does on the lines that are
not blank. *)
Theorem main_loop_skips_blank_lines (locations : list string)
  (output_file : string) (all_properties : json) (e : env) (st : state) :
  main_loop locations output_file all_properties e st
  = main_loop (List.filter (fun l => negb (is_empty (strip l))) locations)
              output_file all_properties e st.
Proof.
  revert all_properties st.
  induction locations as [|l ls IH]; intros all_properties st; [reflexivity|].
  cbn [List.filter]. destruct (is_empty (strip l)) eqn:E; cbn [negb].
  - cbn [main_loop]. rewrite E. apply IH.
  - cbn [main_loop]. rewrite E. unfold World.bind.
    destruct (scrape_real_estate_listings (strip l) output_file e st)
      as [[props|exc] s1]; [|reflexivity].
    unfold read_file. destruct (files s1 !! output_file).
    + unfold sleep_uniform. apply IH.
    + destruct all_properties; try reflexivity.
      destruct (write_json _ _ e s1) as [[] s2]; [|reflexivity].
      unfold sleep_uniform. apply IH.
Qed.






(** X17.  When "output.json" holds a JSON number, boolean or null, [main]
raises [TypeError] on [len()] before any request is made, while
[scrape_real_estate_listings] called on the same file starts from the
empty collection. *)
Theorem main_rejects_output_without_length (raw : string) (j : json)
  (e : env) (st : state) :
  files st !! "output.json" = Some (FJson j) ->
  has_len j = false ->
  main (Some raw) e st = (Crashed LenTypeError, st)
  /\ loaded "output.json" st = [].
Proof.
  intros Hf Hl. split.
  - unfold main. cbv zeta. unfold World.bind at 1. unfold load_all.
    unfold World.bind, read_file, World.ret. cbv beta iota.
    rewrite Hf, Hl. reflexivity.
  - unfold loaded. rewrite Hf. destruct j; try reflexivity. discriminate.
Qed.

Lemma main_rejects_output_without_length_witness :
  let st := {| trace := []; files := {[ "output.json" := FJson JNull ]} |} in
  main (Some "austin tx") (constant_env (Response 200 plain_page)) st
  = (Crashed LenTypeError, st).
Proof.
  intros st.
  apply (main_rejects_output_without_length "austin tx" JNull
           (constant_env (Response 200 plain_page)) st).
  - subst st. simpl. apply lookup_singleton_eq.
  - reflexivity.
Defined.

End MainExtras.

(** * Further properties of [convert_price_to_number] *)

Module PriceExtras.
Import PyStr PyNum PyExn Price PyStrFacts PyNumFacts PriceFacts PriceSpec.





Lemma replace_char_id x new s :
  forallb_str (fun c => negb (Ascii.eqb c x)) s = true ->
  replace_char x new s = s.
Proof.
  induction s as [|c s IH]; simpl; [reflexivity|].
  intros [Hc Hs]%andb_prop. apply negb_true_iff in Hc.
  rewrite Hc, (IH Hs). reflexivity.
Qed.

Lemma lower_app a b : lower (a ++ b) = lower a ++ lower b.
Proof.
  induction a as [|c a IH]; simpl; [reflexivity|]. rewrite IH. reflexivity.
Qed.

Lemma contains_app_r sub a b :
  contains sub b = true -> contains sub (a ++ b) = true.
Proof.
  intros H. induction a as [|c a IH]; [exact H|].
  change (String c a ++ b) with (String c (a ++ b)). cbn [contains].
  rewrite IH. apply orb_true_r.
Qed.

Lemma span_app p a b :
  forallb_str p a = true ->
  span p (a ++ b) = (a ++ fst (span p b), snd (span p b)).
Proof.
  induction a as [|c a IH]; simpl.
  - intros _. destruct (span p b); reflexivity.
  - intros [Hc Ha]%andb_prop. rewrite Hc, (IH Ha). reflexivity.
Qed.

Lemma digit_plain c :
  is_digit c = true ->
  is_space c = false /\ Ascii.eqb c "," = false /\ is_dot c = false.
Proof.
  destruct c as [[] [] [] [] [] [] [] []]; vm_compute; intros H;
    try discriminate H; auto.
Qed.

(** [float()] of a string of digits. *)
Lemma py_float_digits d :
  forallb_str is_digit d = true -> is_empty d = false ->
  py_float d = Some (float_of_decimal (Z.to_N (digits_value 0 d)) 0).
Proof.
  intros Hd Hne.
  pose proof (forallb_str_impl _ _ _ digit_is_num_char Hd) as Hn.
  rewrite (py_float_num d Hn). unfold mantissa.
  rewrite split_at_none.
  - rewrite (digitpart_num d Hn), Hne, Hd. reflexivity.
  - revert Hd. apply forallb_str_impl. intros c Hc.
    destruct (digit_plain c Hc) as (_ & _ & ->). reflexivity.
Qed.

(** X19.  A dollar sign, digits and a capital M: the value is the float of
the digits multiplied by the float 1000000.0. *)
Theorem convert_price_of_millions (d : string) :
  forallb_str is_digit d = true -> is_empty d = false ->
  convert_price_to_number ("$" ++ d ++ "M")
  = Returns (NFloat (fmul (float_of_decimal (Z.to_N (digits_value 0 d)) 0)
                          (float_of_Z 1000000))).
Proof.
  intros Hd Hne. unfold convert_price_to_number.
  assert (Hplain : forallb_str (fun c => negb (is_space c)) ("$" ++ d ++ "M")
                   = true
                   /\ forallb_str (fun c => negb (Ascii.eqb c ","))
                                  ("$" ++ d ++ "M") = true).
  { assert (H1 : forallb_str (fun c => negb (is_space c)) d = true).
    { revert Hd. apply forallb_str_impl. intros c Hc.
      destruct (digit_plain c Hc) as (-> & _). reflexivity. }
    assert (H2 : forallb_str (fun c => negb (Ascii.eqb c ",")) d = true).
    { revert Hd. apply forallb_str_impl. intros c Hc.
      destruct (digit_plain c Hc) as (_ & -> & _). reflexivity. }
    change ("$" ++ d ++ "M") with (String "$" (d ++ "M")).
    cbn [forallb_str]. rewrite !forallb_str_app, H1, H2.
    split; reflexivity. }
  destruct Hplain as [Hs Hc].
  rewrite (strip_id (fun c => negb (is_space c)) _); [|intros c H; apply negb_true_iff; exact H|exact Hs].
  rewrite (replace_char_id _ _ _ Hc).
  assert (Hm : million_match ("$" ++ d ++ "M") = Some d).
  { unfold million_match.
    replace (contains "m" (lower ("$" ++ d ++ "M"))) with true.
    2:{ symmetry. change ("$" ++ d ++ "M") with (String "$" d ++ "M").
        rewrite lower_app. apply contains_app_r. reflexivity. }
    rewrite orb_true_r.
    change ("$" ++ d ++ "M") with (String "$" (d ++ "M")).
    cbn [search_million]. unfold match_million_at.
    change (skip_one_of currency (String "$" (d ++ "M"))) with (d ++ "M").
    destruct d as [|c d']; [discriminate|].
    assert (Hsp : span is_space (String c d' ++ "M") = ("", String c d' ++ "M")).
    { simpl in Hd. apply andb_prop in Hd as [Hc0 _].
      destruct (digit_plain c Hc0) as (Hc1 & _). simpl. rewrite Hc1.
      reflexivity. }
    rewrite Hsp, (span_app is_digit (String c d') "M" Hd).
    change (span is_digit "M") with ("", "M"). cbn [fst snd].
    rewrite append_empty_r. cbn [is_empty].
    change (span is_digit "M") with ("", "M").
    change (span is_space "M") with ("", "M").
    change (is_m "M") with true. cbv beta iota.
    change (String c d' ++ "" ++ "") with (String c (d' ++ "")).
    rewrite append_empty_r. reflexivity. }
  rewrite Hm, (py_float_digits d Hd Hne). reflexivity.
Qed.

(** X19 on "$12M". *)
Lemma convert_price_of_millions_witness :
  convert_price_to_number "$12M" = Returns (NFloat (float_of_Z 12000000)).
Proof.
  pose proof (convert_price_of_millions "12" eq_refl eq_refl) as H.
  change ("$" ++ "12" ++ "M") with "$12M" in H. rewrite H.
  vm_compute. reflexivity.
Defined.

End PriceExtras.
